(** * Network builders of the Yeshiva CS bibliometrics backend (app.py)

    A shallow embedding of the data pipeline of [app.py]: the numeric
    normaliser [convert_numpy_types], the author-position resolver
    [clean_author_position] and the three graph builders
    [generate_citation_network], [generate_collaboration_network] and
    [generate_enhanced_citation_network], followed by the properties the
    specification states about them.

    Conventions of the embedding.
    - A Python [str] is a [string]; one [ascii] stands for one code point
      below 256, and the order on texts is the code-point order of
      [String.compare], which is the order of Python's [<] and [sorted].
      The two messages of the collaboration builder hold a full-width
      colon, kept here as its UTF-8 bytes.
    - Python integers are [Z]; Python floats are IEEE binary64 values,
      written as [spec_float] and computed with the operations of
      [SpecFloat] at precision 53.
    - An exception is a value: code that may raise lives in the [outcome]
      monad, and [try ... except] is a match on the outcome.
    - A pandas column or frame is the list of its rows in index order. *)

From Stdlib Require Import ZArith List Bool Lia Permutation Sorted.
From Stdlib Require Import Structures.OrderedTypeEx.
From Stdlib Require Import Strings.String Strings.Ascii.
From Stdlib Require Import Numbers.DecimalString.
From Stdlib Require Import Floats.SpecFloat.
Import ListNotations.

Set Warnings "-register-all".

Local Open Scope string_scope.
Local Open Scope Z_scope.
Local Open Scope list_scope.

(** Text concatenation, as [+] on [str] and the pieces of an f-string. *)
Notation "s +++ t" := (String.append s t) (at level 60, right associativity).

(* ------------------------------------------------------------------ *)
(** ** Exceptions *)

Inductive exn_class : Type :=
| ValueError
| TypeError
| OverflowError
| KeyError
| IndexError
| OtherError.

(** An exception object: its class and the text [str(e)] gives. *)
Record exn : Type := mk_exn { exn_kind : exn_class; exn_str : string }.

Inductive outcome (A : Type) : Type :=
| Return (a : A)
| Raise (e : exn).

Arguments Return {A} a.
Arguments Raise {A} e.

Definition bind {A B : Type} (c : outcome A) (k : A -> outcome B) : outcome B :=
  match c with
  | Return a => k a
  | Raise e => Raise e
  end.

Notation "x <- c ;; k" := (bind c (fun x => k))
  (at level 61, c at next level, right associativity).

Definition exn_class_eqb (a b : exn_class) : bool :=
  match a, b with
  | ValueError, ValueError | TypeError, TypeError
  | OverflowError, OverflowError | KeyError, KeyError
  | IndexError, IndexError | OtherError, OtherError => true
  | _, _ => false
  end.

(** [except (C1, C2, ...)]: does the handler's class list catch [e]? *)
Definition catches (classes : list exn_class) (e : exn) : bool :=
  existsb (exn_class_eqb (exn_kind e)) classes.

(** [for x in xs: body] over a loop state, stopping at the first raise. *)
Fixpoint for_each {A S : Type} (xs : list A) (body : A -> S -> outcome S)
    (s : S) : outcome S :=
  match xs with
  | [] => Return s
  | x :: xs' => s' <- body x s ;; for_each xs' body s'
  end.

(** [Series.apply(f)]: the results in row order, or the first raise. *)
Fixpoint apply_each {A B : Type} (f : A -> outcome B) (xs : list A)
    : outcome (list B) :=
  match xs with
  | [] => Return []
  | x :: xs' => y <- f x ;; ys <- apply_each f xs' ;; Return (y :: ys)
  end.

(* ------------------------------------------------------------------ *)
(** ** Python text operations *)

Module PyText.

Definition code (c : ascii) : N := N_of_ascii c.

(** [str.isspace] on one code point below 256. *)
Definition isspace (c : ascii) : bool :=
  let n := code c in
  ((9 <=? n) && (n <=? 13) || (28 <=? n) && (n <=? 32)
   || (n =? 133) || (n =? 160))%N.

(** Leading characters of the class [sp] removed. *)
Fixpoint lstrip_by (sp : ascii -> bool) (s : string) : string :=
  match s with
  | EmptyString => EmptyString
  | String c s' => if sp c then lstrip_by sp s' else s
  end.

(** Trailing characters of the class [sp] removed. *)
Fixpoint rstrip_by (sp : ascii -> bool) (s : string) : string :=
  match s with
  | EmptyString => EmptyString
  | String c s' =>
      match rstrip_by sp s' with
      | EmptyString => if sp c then EmptyString else String c EmptyString
      | r => String c r
      end
  end.

Definition strip_by (sp : ascii -> bool) (s : string) : string :=
  rstrip_by sp (lstrip_by sp s).

(** [s.strip()] *)
Definition strip (s : string) : string := strip_by isspace s.

(** [str.lower] on one code point below 256: A-Z, and the Latin-1
    capitals 192-222 except the multiplication sign 215. *)
Definition lower_char (c : ascii) : ascii :=
  let n := code c in
  if ((65 <=? n) && (n <=? 90)
      || (192 <=? n) && (n <=? 222) && negb (n =? 215))%N
  then ascii_of_N (n + 32) else c.

Fixpoint lower (s : string) : string :=
  match s with
  | EmptyString => EmptyString
  | String c s' => String (lower_char c) (lower s')
  end.

Definition digit_value (c : ascii) : option Z :=
  let n := code c in
  if ((48 <=? n) && (n <=? 57))%N then Some (Z.of_N n - 48) else None.

(** The digit part of an integer literal: decimal digits, with single
    underscores allowed between two digits. [after_digit] tells whether
    the previous character was a digit. *)
Fixpoint digits (s : string) (acc : Z) (after_digit : bool) : option Z :=
  match s with
  | EmptyString => if after_digit then Some acc else None
  | String c s' =>
      match digit_value c with
      | Some d => digits s' (10 * acc + d) true
      | None =>
          if (code c =? 95)%N && after_digit then digits s' acc false
          else None
      end
  end.

(** The white space [int] skips around a literal: blank, tab, line feed,
    vertical tab, form feed and carriage return, and the two spaces above
    127, which [int] first rewrites to a blank. The separators 28-31,
    which [str.strip] removes, are not among them. *)
Definition int_space (c : ascii) : bool :=
  let n := code c in
  ((9 <=? n) && (n <=? 13) || (n =? 32) || (n =? 133) || (n =? 160))%N.

(** The number of digits of a literal. *)
Fixpoint digit_count (s : string) : Z :=
  match s with
  | EmptyString => 0
  | String c s' =>
      match digit_value c with
      | Some _ => 1 + digit_count s'
      | None => digit_count s'
      end
  end.

(** The interpreter's default cap on the digits of a decimal literal. *)
Definition max_str_digits : Z := 4300.

(** The digits of a literal, within the cap. *)
Definition capped_digits (s : string) : option Z :=
  match digits s 0 false with
  | Some z => if max_str_digits <? digit_count s then None else Some z
  | None => None
  end.

(** [int(s)] for a text [s], base 10: the white space of [int_space]
    around it, an optional sign, then the digits. [None] stands for
    [ValueError]. *)
Definition int_literal (s : string) : option Z :=
  match strip_by int_space s with
  | String "+" r => capped_digits r
  | String "-" r => option_map Z.opp (capped_digits r)
  | r => capped_digits r
  end.

(** [str(z)] for an integer. *)
Definition of_Z (z : Z) : string := NilEmpty.string_of_int (Z.to_int z).

(** [repr(s)] for a text without quotes, backslashes or control
    characters. *)
Definition repr (s : string) : string := "'" +++ s +++ "'".

(** [x in [s1, s2, ...]] for texts. *)
Definition mem (x : string) (l : list string) : bool :=
  existsb (String.eqb x) l.

End PyText.

(* ------------------------------------------------------------------ *)
(** ** Raw cell values and the author-position resolver *)

(** A cell of a column read without a declared dtype: missing, an
    integer, a float, a boolean or a text. *)
Inductive cell : Type :=
| CNull
| CInt (z : Z)
| CFloat (f : spec_float)
| CBool (b : bool)
| CStr (s : string).

(** [pd.isna(x)] on a scalar: [None]/[NaN]. *)
Definition pd_isna (x : cell) : bool :=
  match x with
  | CNull => true
  | CFloat S754_nan => true
  | _ => false
  end.

(** [int(f)] for a finite float: truncation toward zero of [m * 2^e]. *)
Definition trunc_finite (s : bool) (m : positive) (e : Z) : Z :=
  let a := if 0 <=? e then Z.pos m * 2 ^ e else Z.pos m / 2 ^ (- e) in
  if s then - a else a.

(** [int(x)] *)
Definition py_int (x : cell) : outcome Z :=
  match x with
  | CNull =>
      Raise (mk_exn TypeError
        "int() argument must be a string, a bytes-like object or a real number, not 'NoneType'")
  | CInt z => Return z
  | CBool b => Return (if b then 1 else 0)
  | CFloat (S754_zero _) => Return 0
  | CFloat (S754_finite s m e) => Return (trunc_finite s m e)
  | CFloat (S754_infinity _) =>
      Raise (mk_exn OverflowError "cannot convert float infinity to integer")
  | CFloat S754_nan =>
      Raise (mk_exn ValueError "cannot convert float NaN to integer")
  | CStr s =>
      match PyText.int_literal s with
      | Some z => Return z
      | None =>
          Raise (mk_exn ValueError
            ("invalid literal for int() with base 10: " +++ PyText.repr s))
      end
  end.

Section AuthorPosition.

(** [repr] of a float is the shortest text that reads back as the same
    float; the resolver never depends on it, so it stays a parameter. *)
Variable float_repr : spec_float -> string.

(** [str(x)] *)
Definition py_str (x : cell) : string :=
  match x with
  | CNull => "None"
  | CInt z => PyText.of_Z z
  | CFloat f => float_repr f
  | CBool b => if b then "True" else "False"
  | CStr s => s
  end.

Definition clean_author_position (position : cell) : outcome (option Z) :=
  if pd_isna position then Return None
  else
    match py_int position with
    | Return z => Return (Some z)
    | Raise e =>
        if catches [ValueError; TypeError] e then
          let position_str := PyText.lower (PyText.strip (py_str position)) in
          if PyText.mem position_str ["middle"; "mid"] then Return (Some 2)
          else if PyText.mem position_str ["last"; "corresponding"; "corr"]
          then Return (Some (-1))
          else Return None
        else Raise e
    end.

End AuthorPosition.

(* ------------------------------------------------------------------ *)
(** ** Python floats *)

Module PyFloat.

Definition prec : Z := 53.
Definition emax : Z := 1024.

(** [float(z)]: the nearest binary64 value, ties to even. *)
Definition of_int (z : Z) : spec_float := binary_normalize prec emax z 0 false.

Definition mul (x y : spec_float) : spec_float := SFmul prec emax x y.
Definition add (x y : spec_float) : spec_float := SFadd prec emax x y.

(** The literal [0.8], that is 0x1.999999999999ap-1. *)
Definition lit_0_8 : spec_float := S754_finite false 7205759403792794 (-53).

(** The literal [2.0]. *)
Definition lit_2_0 : spec_float := S754_finite false 4503599627370496 (-51).

(** [float(x)] for an extended-precision value [x]: the nearest binary64
    value, ties to even. *)
Definition of_longdouble (x : spec_float) : spec_float :=
  match x with
  | S754_finite s m e => binary_round prec emax s m e
  | _ => x
  end.

End PyFloat.

(* ------------------------------------------------------------------ *)
(** ** Python values and the numeric normaliser *)

(** The items of a NumPy array along its axes, down to leaves of type
    [L]. (That the items of an axis have one shape is not enforced.) *)
Inductive ndarray (L : Type) : Type :=
| NdLeaf (x : L)
| NdAxis (items : list (ndarray L)).

Arguments NdLeaf {L} x.
Arguments NdAxis {L} items.

(** An array of a numeric, boolean or text dtype: all leaves of one
    kind. [FloatArray] stands for the float dtypes up to 64 bits,
    [LongDoubleArray] for the extended-precision dtype. *)
Inductive typed_array : Type :=
| IntArray (a : ndarray Z)
| FloatArray (a : ndarray spec_float)
| LongDoubleArray (a : ndarray spec_float)
| BoolArray (a : ndarray bool)
| StrArray (a : ndarray string).

(** The values [convert_numpy_types] may meet: plain Python scalars and
    containers, NumPy scalars, and NumPy arrays of a typed dtype or of
    dtype [object], whose leaves are any values. A dict pairs keys with
    values; a key is any value. *)
Inductive pyval : Type :=
| PNone
| PBool (b : bool)
| PInt (z : Z)
| PFloat (f : spec_float)
| PStr (s : string)
| PList (items : list pyval)
| PTuple (items : list pyval)
| PSet (items : list pyval)
| PDict (entries : list (pyval * pyval))
| NpInteger (z : Z)
| NpFloating (f : spec_float)
| NpLongDouble (x : spec_float)
| NpBool (b : bool)
| NpArray (a : typed_array)
| NpObjectArray (a : ndarray pyval).

(** The nested lists of an array, each leaf turned into a value. *)
Fixpoint nd_tolist {L : Type} (leaf : L -> pyval) (a : ndarray L) : pyval :=
  match a with
  | NdLeaf x => leaf x
  | NdAxis items => PList (map (nd_tolist leaf) items)
  end.

(** [a.tolist()] for a typed array: nested lists of plain scalars, except
    that an extended-precision leaf has no plain counterpart and stays a
    NumPy scalar. *)
Definition tolist (a : typed_array) : pyval :=
  match a with
  | IntArray a => nd_tolist PInt a
  | FloatArray a => nd_tolist PFloat a
  | LongDoubleArray a => nd_tolist NpLongDouble a
  | BoolArray a => nd_tolist PBool a
  | StrArray a => nd_tolist PStr a
  end.

(** [a.tolist()] for an array of dtype [object]: the stored values
    themselves. *)
Definition object_tolist (a : ndarray pyval) : pyval :=
  nd_tolist (fun v => v) a.

Fixpoint convert_numpy_types (obj : pyval) : pyval :=
  match obj with
  | NpInteger z => PInt z
  | NpFloating f => PFloat f
  | NpLongDouble x => PFloat (PyFloat.of_longdouble x)
  | NpArray a => tolist a
  | NpObjectArray a => object_tolist a
  | PDict entries =>
      PDict (map (fun kv => let '(key, value) := kv in
                            (key, convert_numpy_types value)) entries)
  | PList items => PList (map convert_numpy_types items)
  | _ => obj
  end.

(** No library-native integer, float or array anywhere inside [v], keys
    of dicts and items of tuples and sets included. *)
Fixpoint native_free (v : pyval) : bool :=
  match v with
  | NpInteger _ | NpFloating _ | NpLongDouble _
  | NpArray _ | NpObjectArray _ => false
  | PList items | PTuple items | PSet items => forallb native_free items
  | PDict entries =>
      forallb (fun kv => let '(key, value) := kv in
                         native_free key && native_free value) entries
  | _ => true
  end.

(** Every leaf of the array satisfies [p]. *)
Fixpoint nd_forallb {L : Type} (p : L -> bool) (a : ndarray L) : bool :=
  match a with
  | NdLeaf x => p x
  | NdAxis items => forallb (nd_forallb p) items
  end.

(** The native numbers of [v] all sit where one pass reaches and converts
    them: under list items and dict values, as scalars or in arrays whose
    [tolist] is plain. Tuples, sets, dict keys and the leaves of an
    [object] array must hold none. *)
Fixpoint within_reach (v : pyval) : bool :=
  match v with
  | NpArray (LongDoubleArray a) => nd_forallb (fun _ => false) a
  | NpObjectArray a => nd_forallb native_free a
  | PList items => forallb within_reach items
  | PTuple items | PSet items => forallb native_free items
  | PDict entries =>
      forallb (fun kv => let '(key, value) := kv in
                         native_free key && within_reach value) entries
  | _ => true
  end.

(** Structural induction on values, with the hypotheses for the items of
    a container. *)
Section PyvalInd.

Variable P : pyval -> Prop.
Hypothesis HNone : P PNone.
Hypothesis HBool : forall b, P (PBool b).
Hypothesis HInt : forall z, P (PInt z).
Hypothesis HFloat : forall f, P (PFloat f).
Hypothesis HStr : forall s, P (PStr s).
Hypothesis HList : forall items, Forall P items -> P (PList items).
Hypothesis HTuple : forall items, P (PTuple items).
Hypothesis HSet : forall items, P (PSet items).
Hypothesis HDict :
  forall entries, Forall (fun kv => P (snd kv)) entries -> P (PDict entries).
Hypothesis HNpInteger : forall z, P (NpInteger z).
Hypothesis HNpFloating : forall f, P (NpFloating f).
Hypothesis HNpLongDouble : forall x, P (NpLongDouble x).
Hypothesis HNpBool : forall b, P (NpBool b).
Hypothesis HNpArray : forall a, P (NpArray a).
Hypothesis HNpObjectArray : forall a, P (NpObjectArray a).

Fixpoint pyval_nested_ind (v : pyval) : P v :=
  match v with
  | PNone => HNone
  | PBool b => HBool b
  | PInt z => HInt z
  | PFloat f => HFloat f
  | PStr s => HStr s
  | PList items =>
      HList items
        ((fix go (l : list pyval) : Forall P l :=
            match l with
            | [] => Forall_nil P
            | x :: l' => Forall_cons x (pyval_nested_ind x) (go l')
            end) items)
  | PTuple items => HTuple items
  | PSet items => HSet items
  | PDict entries =>
      HDict entries
        ((fix go (l : list (pyval * pyval))
            : Forall (fun kv => P (snd kv)) l :=
            match l with
            | [] => Forall_nil _
            | kv :: l' =>
                Forall_cons kv
                  (match kv return P (snd kv) with
                   | (_, value) => pyval_nested_ind value
                   end)
                  (go l')
            end) entries)
  | NpInteger z => HNpInteger z
  | NpFloating f => HNpFloating f
  | NpLongDouble x => HNpLongDouble x
  | NpBool b => HNpBool b
  | NpArray a => HNpArray a
  | NpObjectArray a => HNpObjectArray a
  end.

End PyvalInd.

Section NdarrayInd.

Variable L : Type.
Variable P : ndarray L -> Prop.
Hypothesis HLeaf : forall x, P (NdLeaf x).
Hypothesis HAxis : forall items, Forall P items -> P (NdAxis items).

Fixpoint ndarray_nested_ind (a : ndarray L) : P a :=
  match a with
  | NdLeaf x => HLeaf x
  | NdAxis items =>
      HAxis items
        ((fix go (l : list (ndarray L)) : Forall P l :=
            match l with
            | [] => Forall_nil P
            | x :: l' => Forall_cons x (ndarray_nested_ind x) (go l')
            end) items)
  end.

End NdarrayInd.

(* ------------------------------------------------------------------ *)
(** ** Column operations of pandas, on lists *)

(** Values that can be compared for equality ([==], hashing). *)
Class Hashable (A : Type) : Type := {
  eqb : A -> A -> bool;
  eqb_spec : forall x y : A, reflect (x = y) (eqb x y)
}.

(** Values that can also be sorted ([<=]). *)
Class Sortable (A : Type) `{Hashable A} : Type := {
  leb : A -> A -> bool
}.

#[export] Instance string_Hashable : Hashable string :=
  {| eqb := String.eqb; eqb_spec := String.eqb_spec |}.

#[export] Instance string_Sortable : Sortable string := {| leb := String.leb |}.

Definition option_eqb {A : Type} `{Hashable A} (x y : option A) : bool :=
  match x, y with
  | Some a, Some b => eqb a b
  | None, None => true
  | _, _ => false
  end.

Lemma option_eqb_spec {A : Type} `{Hashable A} (x y : option A) :
  reflect (x = y) (option_eqb x y).
Proof.
  destruct x as [a|], y as [b|]; simpl; try (constructor; congruence).
  destruct (eqb_spec a b); constructor; congruence.
Qed.

(** A missing cell counts as one value of its own: [unique] lists it once
    and [isin] finds it. *)
#[export] Instance option_Hashable {A : Type} `{Hashable A}
    : Hashable (option A) :=
  {| eqb := option_eqb; eqb_spec := option_eqb_spec |}.

Definition pair_eqb {A B : Type} `{Hashable A} `{Hashable B} (x y : A * B)
    : bool :=
  eqb (fst x) (fst y) && eqb (snd x) (snd y).

Lemma pair_eqb_spec {A B : Type} `{Hashable A} `{Hashable B} (x y : A * B) :
  reflect (x = y) (pair_eqb x y).
Proof.
  destruct x as [a b], y as [c d]; unfold pair_eqb; simpl.
  destruct (eqb_spec a c), (eqb_spec b d); simpl; constructor; congruence.
Qed.

#[export] Instance pair_Hashable {A B : Type} `{Hashable A} `{Hashable B}
    : Hashable (A * B) :=
  {| eqb := pair_eqb; eqb_spec := pair_eqb_spec |}.

(** Tuples of keys sort by the first component, then by the second. *)
#[export] Instance pair_Sortable {A B : Type} `{Sortable A} `{Sortable B}
    : Sortable (A * B) :=
  {| leb := fun x y =>
       if eqb (fst x) (fst y) then leb (snd x) (snd y)
       else leb (fst x) (fst y) |}.

Section Columns.

Context {A : Type} `{Hashable A}.

(** [x in xs], [Series.isin]. *)
Definition isin (x : A) (xs : list A) : bool := existsb (eqb x) xs.

(** [Series.unique()]: the distinct values in order of first appearance. *)
Fixpoint unique (xs : list A) : list A :=
  match xs with
  | [] => []
  | x :: xs' => x :: filter (fun y => negb (eqb x y)) (unique xs')
  end.

(** [len(s[s == x])] *)
Definition occurrences (x : A) (xs : list A) : nat :=
  List.length (filter (eqb x) xs).

End Columns.

Section Sorting.

Context {A : Type} `{Sortable A}.

Fixpoint insert_sorted (x : A) (xs : list A) : list A :=
  match xs with
  | [] => [x]
  | y :: xs' => if leb x y then x :: xs else y :: insert_sorted x xs'
  end.

(** [sorted(xs)] *)
Fixpoint sorted (xs : list A) : list A :=
  match xs with
  | [] => []
  | x :: xs' => insert_sorted x (sorted xs')
  end.

(** The group keys of [groupby(...)], which sorts them. *)
Definition group_keys (keys : list A) : list A := sorted (unique keys).

(** [groupby(keys).size()]: each key with its number of rows. *)
Definition groupby_size (keys : list A) : list (A * Z) :=
  map (fun k => (k, Z.of_nat (occurrences k keys))) (group_keys keys).

End Sorting.

(** [groupby(key)[value].apply(list)]: each key with the values of its
    rows, in row order. *)
Definition groupby_list {R K V : Type} `{Sortable K} (key : R -> K)
    (value : R -> V) (rows : list R) : list (K * list V) :=
  map (fun k => (k, map value (filter (fun r => eqb (key r) k) rows)))
      (group_keys (map key rows)).

(** [groupby(key)[value].nunique()]: each key with the number of distinct
    values of its rows. *)
Definition groupby_nunique {R K V : Type} `{Sortable K} `{Hashable V}
    (key : R -> K) (value : R -> V) (rows : list R) : list (K * Z) :=
  map (fun k => (k, Z.of_nat (List.length (unique
         (map value (filter (fun r => eqb (key r) k) rows))))))
      (group_keys (map key rows)).

(** [s.iloc[0]] *)
Definition iloc0 {A : Type} (xs : list A) : outcome A :=
  match xs with
  | x :: _ => Return x
  | [] => Raise (mk_exn IndexError "single positional indexer is out-of-bounds")
  end.

(** [itertools.combinations(xs, 2)] *)
Fixpoint combinations2 {A : Type} (xs : list A) : list (A * A) :=
  match xs with
  | [] => []
  | x :: xs' => map (fun y => (x, y)) xs' ++ combinations2 xs'
  end.

(* ------------------------------------------------------------------ *)
(** ** Source tables on disk *)

(** What [pd.read_csv] makes of a file that exists: a frame, or a raise
    (a column that does not coerce to its dtype, a broken file). *)
Inductive file (row : Type) : Type :=
| Unreadable (e : exn)
| Table (rows : list row).

Arguments Unreadable {row} e.
Arguments Table {row} rows.

(** The disk, seen through the paths a builder looks up. *)
Definition filesystem (row : Type) : Type := string -> option (file row).

Definition os_path_exists {row : Type} (fs : filesystem row) (path : string)
    : bool :=
  match fs path with
  | Some _ => true
  | None => false
  end.

Definition pd_read_csv {row : Type} (fs : filesystem row) (path : string)
    : outcome (list row) :=
  match fs path with
  | Some (Table rows) => Return rows
  | Some (Unreadable e) => Raise e
  | None =>
      Raise (mk_exn OtherError
               ("[Errno 2] No such file or directory: " +++ PyText.repr path))
  end.

(** [str(CURRENT_DIR / name)] for the resolved directory of the module. *)
Definition path_join (current_dir name : string) : string :=
  if String.eqb current_dir "/" then "/" +++ name
  else current_dir +++ "/" +++ name.

(** The dict every builder returns: [nodes], [links], and [error] when the
    build failed. *)
Record network (N L : Type) : Type := mk_network {
  error : option string;
  nodes : list N;
  links : list L
}.

Arguments mk_network {N L} error nodes links.
Arguments error {N L} n.
Arguments nodes {N L} n.
Arguments links {N L} n.

Definition failure {N L : Type} (message : string) : network N L :=
  mk_network (Some message) [] [].

Definition success {N L : Type} (ns : list N) (ls : list L) : network N L :=
  mk_network None ns ls.

(* ------------------------------------------------------------------ *)
(** ** Citation network *)

(** A row of the citation table as read: any cell may be missing. *)
Record citation_row : Type := mk_citation_row {
  raw_citing_paperid : option string;
  raw_cited_paperid : option string;
  raw_year : option Z;
  raw_ref_year : option Z
}.

(** A row with its four cells present. *)
Record citation : Type := mk_citation {
  citing_paperid : string;
  cited_paperid : string;
  year : Z;
  ref_year : Z
}.

Inductive year_or_unknown : Type :=
| Year (y : Z)
| Unknown.

Module PaperNode.
Record t : Type := mk {
  id : string;
  name : string;
  publish_year : year_or_unknown;
  citation_count : Z;
  institution : string
}.
End PaperNode.

Module CitationLink.
Record t : Type := mk {
  source : string;
  target : string;
  value : Z;
  citing_year : Z;
  cited_year : Z;
  year_diff : Z
}.
End CitationLink.

(** [df.dropna(subset=[citing_paperid, cited_paperid, year, ref_year])] *)
Fixpoint dropna_citation (df : list citation_row) : list citation :=
  match df with
  | [] => []
  | r :: df' =>
      match raw_citing_paperid r, raw_cited_paperid r, raw_year r, raw_ref_year r with
      | Some citing, Some cited, Some y, Some ry =>
          mk_citation citing cited y ry :: dropna_citation df'
      | _, _, _, _ => dropna_citation df'
      end
  end.

(** The cleaning step: complete rows whose [year] lies in 2020..2025. *)
Definition clean_citations (df : list citation_row) : list citation :=
  filter (fun r => (2020 <=? year r) && (year r <=? 2025)) (dropna_citation df).

Definition all_paper_ids (df_clean : list citation) : list string :=
  unique (map citing_paperid df_clean ++ map cited_paperid df_clean).

Definition publish_year_of (df_clean : list citation) (paper_id : string)
    : year_or_unknown :=
  let citing_records := filter (fun r => eqb (citing_paperid r) paper_id) df_clean in
  let cited_records := filter (fun r => eqb (cited_paperid r) paper_id) df_clean in
  match citing_records with
  | r :: _ => Year (year r)
  | [] =>
      match cited_records with
      | r :: _ => Year (ref_year r)
      | [] => Unknown
      end
  end.

Definition citation_nodes (df_clean : list citation) : list PaperNode.t :=
  map (fun paper_id =>
         let cited_records :=
           filter (fun r => eqb (cited_paperid r) paper_id) df_clean in
         PaperNode.mk paper_id ("Paper_" +++ paper_id)
           (publish_year_of df_clean paper_id)
           (Z.of_nat (List.length cited_records))
           "Yeshiva University, Computer Science Department")
      (all_paper_ids df_clean).

(** The rows of [link_groups]: each [(cited, citing)] pair with its number
    of records. *)
Definition link_groups (df_clean : list citation) : list ((string * string) * Z) :=
  groupby_size (map (fun r => (cited_paperid r, citing_paperid r)) df_clean).

Definition citation_links {N : Type} (node_id : N -> string) (nodes : list N)
    (df_clean : list citation) : outcome (list CitationLink.t) :=
  for_each (link_groups df_clean)
    (fun row links =>
       let '((cited_id, citing_id), cite_times) := row in
       if existsb (fun node => eqb (node_id node) cited_id) nodes
          && existsb (fun node => eqb (node_id node) citing_id) nodes
       then
         citing_year <- iloc0 (map year
           (filter (fun r => eqb (citing_paperid r) citing_id) df_clean)) ;;
         cited_year <- iloc0 (map ref_year
           (filter (fun r => eqb (cited_paperid r) cited_id) df_clean)) ;;
         Return (links ++ [CitationLink.mk cited_id citing_id cite_times
                             citing_year cited_year (citing_year - cited_year)])
       else Return links)
    [].

Definition citation_csv_path (current_dir : string) : string :=
  path_join current_dir "refs_yeshiva_cs_20_25.csv".

(** [generate_citation_network()]: the returned dict, as a [network]. The
    closing [convert_numpy_types] pass acts on its encoding as a Python
    value, see [citation_response]. *)
Definition generate_citation_network (fs : filesystem citation_row)
    (current_dir : string) : network PaperNode.t CitationLink.t :=
  let csv_path := citation_csv_path current_dir in
  if negb (os_path_exists fs csv_path) then
    failure ("The CSV file for the citation network could not be found. Please check the path: "
             +++ csv_path)
  else
    match
      df <- pd_read_csv fs csv_path ;;
      let df_clean := clean_citations df in
      let nodes := citation_nodes df_clean in
      links <- citation_links PaperNode.id nodes df_clean ;;
      Return (success nodes links)
    with
    | Return result => result
    | Raise e => failure ("Data processing failed: " +++ exn_str e)
    end.

(* ------------------------------------------------------------------ *)
(** ** Enhanced citation network *)

Module EnhancedNode.
Record t : Type := mk {
  id : string;
  name : string;
  publish_year : year_or_unknown;
  citation_count : Z;
  institution : string;
  topic : string;
  impact_score : spec_float
}.
End EnhancedNode.

Definition enhanced_nodes (df_clean : list citation) : list EnhancedNode.t :=
  map (fun paper_id =>
         let cited_records :=
           filter (fun r => eqb (cited_paperid r) paper_id) df_clean in
         let citation_count := Z.of_nat (List.length cited_records) in
         let impact_score :=
           PyFloat.add (PyFloat.mul (PyFloat.of_int citation_count) PyFloat.lit_0_8)
                       PyFloat.lit_2_0 in
         EnhancedNode.mk paper_id ("Paper_" +++ paper_id)
           (publish_year_of df_clean paper_id)
           citation_count
           "Yeshiva University, Computer Science Department"
           "Computer Science"
           impact_score)
      (all_paper_ids df_clean).

(** [generate_enhanced_citation_network()]: the same path, messages,
    cleaning and link loop as [generate_citation_network]; the link loop
    reads only the ids of the nodes. *)
Definition generate_enhanced_citation_network (fs : filesystem citation_row)
    (current_dir : string) : network EnhancedNode.t CitationLink.t :=
  let csv_path := citation_csv_path current_dir in
  if negb (os_path_exists fs csv_path) then
    failure ("The CSV file for the citation network could not be found. Please check the path: "
             +++ csv_path)
  else
    match
      df <- pd_read_csv fs csv_path ;;
      let df_clean := clean_citations df in
      let nodes := enhanced_nodes df_clean in
      links <- citation_links EnhancedNode.id nodes df_clean ;;
      Return (success nodes links)
    with
    | Return result => result
    | Raise e => failure ("Data processing failed: " +++ exn_str e)
    end.

(* ------------------------------------------------------------------ *)
(** ** Author collaboration network *)

(** A row of the affiliation table as read: the three id columns are
    texts or missing, [author_position] is whatever the file holds. *)
Record affiliation_row : Type := mk_affiliation_row {
  raw_paperid : option string;
  raw_authorid : option string;
  institutionid : option string;
  author_position : cell
}.

(** A cleaned row: both ids present, the position resolved. *)
Record affiliation : Type := mk_affiliation {
  paperid : string;
  authorid : string;
  author_position_clean : Z
}.

Module AuthorNode.
Record t : Type := mk {
  id : string;
  name : string;
  department : string;
  papers_published : Z;
  first_author_papers : Z;
  corr_author_papers : Z;
  h_index : Z
}.
End AuthorNode.

Module CollabLink.
Record t : Type := mk {
  source : string;
  target : string;
  value : Z;
  co_authored_papers : Z
}.
End CollabLink.

(** An item of [collaboration_pairs]. *)
Record collaboration_pair : Type := mk_pair {
  source_author : string;
  target_author : string;
  pair_paperid : string
}.

Definition sample_size : nat := 1000.

(** The sampling step: when the frame has more than [sample_size] rows,
    keep the rows of the first [sample_size] distinct [paperid] values. *)
Definition sample_papers (affils_df : list affiliation_row)
    : list affiliation_row :=
  if (sample_size <? List.length affils_df)%nat then
    let unique_papers := firstn sample_size (unique (map raw_paperid affils_df)) in
    filter (fun r => isin (raw_paperid r) unique_papers) affils_df
  else affils_df.

(** [dropna(subset=[paperid, authorid, author_position_clean])] *)
Fixpoint dropna_affiliation (df : list (affiliation_row * option Z))
    : list affiliation :=
  match df with
  | [] => []
  | (r, position) :: df' =>
      match raw_paperid r, raw_authorid r, position with
      | Some p, Some a, Some n => mk_affiliation p a n :: dropna_affiliation df'
      | _, _, _ => dropna_affiliation df'
      end
  end.

(** The frame after the blank-id filter. *)
Definition drop_blank_ids (df : list affiliation) : list affiliation :=
  filter (fun r => negb (String.eqb (PyText.strip (paperid r)) "")
                   && negb (String.eqb (PyText.strip (authorid r)) "")) df.

(** [pd.merge(left, right, on=authorid, how=left).fillna({column: 0})]
    for a [right] with one row per author: the count of the author's row
    in [right], 0 when there is none. *)
Definition merged_count (author_id : string) (right : list (string * Z)) : Z :=
  match find (fun kv => eqb (fst kv) author_id) right with
  | Some (_, n) => n
  | None => 0
  end.

(** The rows of [author_attrs]:
    (authorid, papers_published, first_author_papers, corr_author_papers). *)
Definition author_attrs (df_clean : list affiliation)
    : list (string * Z * Z * Z) :=
  let author_papers := groupby_nunique authorid paperid df_clean in
  let first_author_papers :=
    groupby_nunique authorid paperid
      (filter (fun r => author_position_clean r =? 1) df_clean) in
  let corr_author_papers :=
    groupby_nunique authorid paperid
      (filter (fun r => author_position_clean r =? -1) df_clean) in
  filter (fun row => let '(_, published, _, _) := row in 0 <=? published)
    (map (fun kv => let '(author_id, published) := kv in
                    (author_id, published,
                     merged_count author_id first_author_papers,
                     merged_count author_id corr_author_papers))
         author_papers).

Definition collaboration_nodes (df_clean : list affiliation)
    : list AuthorNode.t :=
  map (fun row =>
         let '(author_id, published, first, corr) := row in
         AuthorNode.mk author_id ("Author_" +++ author_id)
           "Yeshiva University, Computer Science Department"
           published first corr (Z.min published 15))
      (author_attrs df_clean).

(** The rows of [paper_authors]: each paper with the author ids of its
    rows, one per row. *)
Definition paper_authors (df_clean : list affiliation)
    : list (string * list string) :=
  groupby_list paperid authorid df_clean.

Definition collaboration_pairs (df_clean : list affiliation)
    : list collaboration_pair :=
  flat_map (fun row =>
              let '(paper, row_authors) := row in
              let authors := sorted row_authors in
              if (2 <=? List.length authors)%nat then
                map (fun pair => mk_pair (fst pair) (snd pair) paper)
                    (combinations2 authors)
              else [])
           (paper_authors df_clean).

(** [pd.DataFrame(pairs).groupby([source_author, target_author]).size()]:
    a frame built from an empty list has no columns, and grouping it by
    a column name raises [KeyError]. *)
Definition collaboration_counts (pairs : list collaboration_pair)
    : outcome (list ((string * string) * Z)) :=
  match pairs with
  | [] => Raise (mk_exn KeyError (PyText.repr "source_author"))
  | _ => Return (groupby_size
                   (map (fun p => (source_author p, target_author p)) pairs))
  end.

Definition collaboration_links (nodes : list AuthorNode.t)
    (counts : list ((string * string) * Z)) : list CollabLink.t :=
  let node_ids := map AuthorNode.id nodes in
  flat_map (fun row =>
              let '((source, target), collab_times) := row in
              if isin source node_ids && isin target node_ids
              then [CollabLink.mk source target collab_times collab_times]
              else [])
           counts.

Definition affils_csv_path (current_dir : string) : string :=
  path_join current_dir "affils_yeshiva_cs_20_25.csv".

Section Collaboration.

Variable float_repr : spec_float -> string.

(** The cleaning steps, from the sampled frame to [df_clean]. *)
Definition clean_affiliations (affils_df : list affiliation_row)
    : outcome (list affiliation) :=
  positions <- apply_each (clean_author_position float_repr)
                 (map author_position affils_df) ;;
  Return (drop_blank_ids (dropna_affiliation (combine affils_df positions))).

(** [generate_collaboration_network()]: the returned dict, as a
    [network]. *)
Definition generate_collaboration_network (fs : filesystem affiliation_row)
    (current_dir : string) : network AuthorNode.t CollabLink.t :=
  let affils_csv_path := affils_csv_path current_dir in
  if negb (os_path_exists fs affils_csv_path) then
    failure ("The CSV file for the author collaboration network could not be found.："
             +++ affils_csv_path)
  else
    match
      affils_df <- pd_read_csv fs affils_csv_path ;;
      let affils_df := sample_papers affils_df in
      df_clean <- clean_affiliations affils_df ;;
      let nodes := collaboration_nodes df_clean in
      counts <- collaboration_counts (collaboration_pairs df_clean) ;;
      let links := collaboration_links nodes counts in
      Return (success nodes links)
    with
    | Return result => result
    | Raise e =>
        failure ("Author collaboration network data processing failed："
                 +++ exn_str e)
    end.

End Collaboration.

(* ------------------------------------------------------------------ *)
(** ** The returned dicts as Python values *)

Definition year_to_py (y : year_or_unknown) : pyval :=
  match y with
  | Year n => PInt n
  | Unknown => PStr "Unknown"
  end.

Definition paper_node_to_py (n : PaperNode.t) : pyval :=
  PDict [(PStr "id", PStr (PaperNode.id n));
         (PStr "name", PStr (PaperNode.name n));
         (PStr "publish_year", year_to_py (PaperNode.publish_year n));
         (PStr "citation_count", PInt (PaperNode.citation_count n));
         (PStr "institution", PStr (PaperNode.institution n))].

Definition enhanced_node_to_py (n : EnhancedNode.t) : pyval :=
  PDict [(PStr "id", PStr (EnhancedNode.id n));
         (PStr "name", PStr (EnhancedNode.name n));
         (PStr "publish_year", year_to_py (EnhancedNode.publish_year n));
         (PStr "citation_count", PInt (EnhancedNode.citation_count n));
         (PStr "institution", PStr (EnhancedNode.institution n));
         (PStr "topic", PStr (EnhancedNode.topic n));
         (PStr "impact_score", PFloat (EnhancedNode.impact_score n))].

Definition citation_link_to_py (l : CitationLink.t) : pyval :=
  PDict [(PStr "source", PStr (CitationLink.source l));
         (PStr "target", PStr (CitationLink.target l));
         (PStr "value", PInt (CitationLink.value l));
         (PStr "citing_year", PInt (CitationLink.citing_year l));
         (PStr "cited_year", PInt (CitationLink.cited_year l));
         (PStr "year_diff", PInt (CitationLink.year_diff l))].

Definition author_node_to_py (n : AuthorNode.t) : pyval :=
  PDict [(PStr "id", PStr (AuthorNode.id n));
         (PStr "name", PStr (AuthorNode.name n));
         (PStr "department", PStr (AuthorNode.department n));
         (PStr "papers_published", PInt (AuthorNode.papers_published n));
         (PStr "first_author_papers", PInt (AuthorNode.first_author_papers n));
         (PStr "corr_author_papers", PInt (AuthorNode.corr_author_papers n));
         (PStr "h_index", PInt (AuthorNode.h_index n))].

Definition collab_link_to_py (l : CollabLink.t) : pyval :=
  PDict [(PStr "source", PStr (CollabLink.source l));
         (PStr "target", PStr (CollabLink.target l));
         (PStr "value", PInt (CollabLink.value l));
         (PStr "co_authored_papers", PInt (CollabLink.co_authored_papers l))].

(** The dict literal a builder passes to [convert_numpy_types]. *)
Definition network_to_py {N L : Type} (node_to_py : N -> pyval)
    (link_to_py : L -> pyval) (r : network N L) : pyval :=
  match error r with
  | Some message =>
      PDict [(PStr "error", PStr message);
             (PStr "nodes", PList (map node_to_py (nodes r)));
             (PStr "links", PList (map link_to_py (links r)))]
  | None =>
      PDict [(PStr "nodes", PList (map node_to_py (nodes r)));
             (PStr "links", PList (map link_to_py (links r)))]
  end.

(** What the route handlers receive: the dict after its pass through
    [convert_numpy_types]. *)
Definition citation_response (fs : filesystem citation_row)
    (current_dir : string) : pyval :=
  convert_numpy_types
    (network_to_py paper_node_to_py citation_link_to_py
       (generate_citation_network fs current_dir)).

Definition enhanced_citation_response (fs : filesystem citation_row)
    (current_dir : string) : pyval :=
  convert_numpy_types
    (network_to_py enhanced_node_to_py citation_link_to_py
       (generate_enhanced_citation_network fs current_dir)).

Definition collaboration_response (float_repr : spec_float -> string)
    (fs : filesystem affiliation_row) (current_dir : string) : pyval :=
  convert_numpy_types
    (network_to_py author_node_to_py collab_link_to_py
       (generate_collaboration_network float_repr fs current_dir)).

(* ------------------------------------------------------------------ *)
(** ** Vocabulary of the citation properties *)



(** The [year] of the first record citing from [citing_id], and the
    [ref_year] of the first record citing [cited_id]. *)
Definition first_citing_year (df : list citation) (citing_id : string) : Z :=
  hd 0 (map year (filter (fun r => eqb (citing_paperid r) citing_id) df)).

Definition first_cited_year (df : list citation) (cited_id : string) : Z :=
  hd 0 (map ref_year (filter (fun r => eqb (cited_paperid r) cited_id) df)).

Definition link_of_group (df : list citation) (row : (string * string) * Z)
    : CitationLink.t :=
  let '((cited_id, citing_id), cite_times) := row in
  CitationLink.mk cited_id citing_id cite_times
    (first_citing_year df citing_id) (first_cited_year df cited_id)
    (first_citing_year df citing_id - first_cited_year df cited_id).

(** An enhanced node without its two added fields. *)
Definition base_node (n : EnhancedNode.t) : PaperNode.t :=
  PaperNode.mk (EnhancedNode.id n) (EnhancedNode.name n)
    (EnhancedNode.publish_year n) (EnhancedNode.citation_count n)
    (EnhancedNode.institution n).

(* ------------------------------------------------------------------ *)
(** ** Vocabulary of the collaboration properties *)

(** [author_id] has a row on [paper]. *)
Definition appears_on (df : list affiliation) (author_id paper : string) : bool :=
  existsb (fun r => String.eqb (paperid r) paper
                    && String.eqb (authorid r) author_id) df.

(** The number of distinct papers on which both authors appear. *)
Definition shared_papers (df : list affiliation) (a b : string) : Z :=
  Z.of_nat (List.length
    (filter (fun paper => appears_on df a paper && appears_on df b paper)
            (unique (map paperid df)))).

(** The author ids of the rows of [paper], in row order. *)
Definition authors_of (df : list affiliation) (paper : string) : list string :=
  map authorid (filter (fun r => eqb (paperid r) paper) df).

(** The (source, target) column of [collaboration_pairs]. *)
Definition pair_keys (df : list affiliation) : list (string * string) :=
  map (fun p => (source_author p, target_author p)) (collaboration_pairs df).

(** The distinct paper ids of the table, in input order; a row without a
    paper id contributes none. *)
Definition distinct_paper_ids (rows : list affiliation_row) : list string :=
  unique (flat_map (fun r => match raw_paperid r with
                             | Some p => [p]
                             | None => []
                             end) rows).

(** The rows whose paper id is among the first [n] distinct paper ids. *)
Definition rows_of_first_papers (n : nat) (rows : list affiliation_row)
    : list affiliation_row :=
  let first_ids := firstn n (distinct_paper_ids rows) in
  filter (fun r => match raw_paperid r with
                   | Some p => isin p first_ids
                   | None => false
                   end) rows.

(* ------------------------------------------------------------------ *)
(** ** Sample tables *)

(** A small citation table: two records from P1 to P2, and one record
    outside the retained years. *)
Definition sample_citation_rows : list citation_row :=
  [mk_citation_row (Some "P1") (Some "P2") (Some 2021) (Some 2021);
   mk_citation_row (Some "P1") (Some "P2") (Some 2022) (Some 2021);
   mk_citation_row (Some "P3") (Some "P2") (Some 2019) (Some 2000);
   mk_citation_row (Some "P4") None (Some 2021) (Some 2020)].

Definition sample_citation_fs : filesystem citation_row :=
  fun path =>
    if String.eqb path "/srv/app/refs_yeshiva_cs_20_25.csv"
    then Some (Table sample_citation_rows) else None.

(** An affiliation table in which every paper has one author row. *)
Definition single_author_rows : list affiliation_row :=
  [mk_affiliation_row (Some "P1") (Some "A1") (Some "I1") (CInt 1);
   mk_affiliation_row (Some "P2") (Some "A2") (Some "I1") (CStr "last")].

Definition single_author_fs : filesystem affiliation_row :=
  fun path =>
    if String.eqb path "/srv/app/affils_yeshiva_cs_20_25.csv"
    then Some (Table single_author_rows) else None.

(** A table of 1500 rows, one per paper, with the paper ids 0..1499. *)
Definition many_paper_rows : list affiliation_row :=
  map (fun n => mk_affiliation_row (Some (PyText.of_Z (Z.of_nat n)))
                  (Some "A1") (Some "I1") (CInt 1))
      (seq 0 1500).

(** A table of 1004 rows: a row without a paper id, then the papers 1 to
    1001 in order; paper 1 has the authors A1 and A2, paper 1000 the
    authors A3 and A4, every other paper the author A1. *)
Definition missing_paperid_rows : list affiliation_row :=
  [mk_affiliation_row None (Some "A0") (Some "I1") (CInt 1);
   mk_affiliation_row (Some "1") (Some "A1") (Some "I1") (CInt 1);
   mk_affiliation_row (Some "1") (Some "A2") (Some "I1") (CInt 2)]
  ++ map (fun n => mk_affiliation_row (Some (PyText.of_Z (Z.of_nat n)))
                     (Some "A1") (Some "I1") (CInt 1))
         (seq 2 998)
  ++ [mk_affiliation_row (Some "1000") (Some "A3") (Some "I1") (CInt 1);
      mk_affiliation_row (Some "1000") (Some "A4") (Some "I1") (CInt 2);
      mk_affiliation_row (Some "1001") (Some "A1") (Some "I1") (CInt 1)].

Definition missing_paperid_fs : filesystem affiliation_row :=
  fun path =>
    if String.eqb path "/srv/app/affils_yeshiva_cs_20_25.csv"
    then Some (Table missing_paperid_rows) else None.

(** The same file holding only the rows of the first 1000 distinct paper
    ids of that table. *)
Definition first_papers_fs : filesystem affiliation_row :=
  fun path =>
    if String.eqb path "/srv/app/affils_yeshiva_cs_20_25.csv"
    then Some (Table (rows_of_first_papers 1000 missing_paperid_rows))
    else None.

(** An affiliation table in which author A has two rows on paper P1 (one
    per institution) and author B has one. *)
Definition repeated_author_rows : list affiliation_row :=
  [mk_affiliation_row (Some "P1") (Some "A") (Some "I1") (CInt 1);
   mk_affiliation_row (Some "P1") (Some "A") (Some "I2") (CInt 1);
   mk_affiliation_row (Some "P1") (Some "B") (Some "I1") (CStr "last")].

Definition repeated_author_fs : filesystem affiliation_row :=
  fun path =>
    if String.eqb path "/srv/app/affils_yeshiva_cs_20_25.csv"
    then Some (Table repeated_author_rows) else None.

(* ------------------------------------------------------------------ *)
(** ** Vocabulary of the further properties *)

(** The sum of a column of integers. *)
Definition total (xs : list Z) : Z := fold_right Z.add 0 xs.

(** The number of distinct papers of the rows of [author_id] that
    satisfy [p]. *)
Definition papers_where (df : list affiliation) (author_id : string)
    (p : affiliation -> bool) : Z :=
  Z.of_nat (List.length (unique (map paperid
    (filter (fun r => String.eqb (authorid r) author_id && p r) df)))).

(** The text is empty or starts with a character that is not a space. *)
Definition starts_clean (s : string) : bool :=
  match s with
  | EmptyString => true
  | String c _ => negb (PyText.isspace c)
  end.

(** Every array that one pass of the normaliser unpacks, under list
    items and dict values, turns into plain lists. *)
Fixpoint arrays_unpack_plain (v : pyval) : bool :=
  match v with
  | NpArray a => native_free (tolist a)
  | NpObjectArray a => native_free (object_tolist a)
  | PList items => forallb arrays_unpack_plain items
  | PDict entries =>
      forallb (fun kv => let '(_, value) := kv in arrays_unpack_plain value)
              entries
  | _ => true
  end.

(** The cell is a float infinity. *)
Definition is_infinite (x : cell) : bool :=
  match x with
  | CFloat (S754_infinity _) => true
  | _ => false
  end.

(** The strict order of two-column group keys: by the first text, then by
    the second. *)
Definition pair_lt (p q : string * string) : Prop :=
  String.ltb (fst p) (fst q) = true
  \/ (fst p = fst q /\ String.ltb (snd p) (snd q) = true).

(** An affiliation table with two shared papers, a float position, role
    words, an unknown role and a blank paper id. *)
Definition sample_affiliation_rows : list affiliation_row :=
  [mk_affiliation_row (Some "P1") (Some "B") (Some "I1") (CInt 1);
   mk_affiliation_row (Some "P1") (Some "A") (Some "I1")
     (CFloat (S754_finite false 1 1));
   mk_affiliation_row (Some "P2") (Some "A") (Some "I1") (CStr "last");
   mk_affiliation_row (Some "P2") (Some "B") (Some "I1") (CStr "1");
   mk_affiliation_row (Some "P2") (Some "C") (Some "I1") (CStr "middle");
   mk_affiliation_row (Some "P3") (Some "D") (Some "I1") (CStr "unknown");
   mk_affiliation_row (Some " ") (Some "E") (Some "I1") (CInt 1)].

Definition sample_affiliation_fs : filesystem affiliation_row :=
  fun path =>
    if String.eqb path "/srv/app/affils_yeshiva_cs_20_25.csv"
    then Some (Table sample_affiliation_rows) else None.

(** The cleaned frame of [sample_affiliation_rows]. *)
Definition sample_affiliation_clean : list affiliation :=
  [mk_affiliation "P1" "B" 1; mk_affiliation "P1" "A" 2;
   mk_affiliation "P2" "A" (-1); mk_affiliation "P2" "B" 1;
   mk_affiliation "P2" "C" 2].

(** A table of 1200 rows over three paper ids. *)
Definition few_paper_rows : list affiliation_row :=
  map (fun n => mk_affiliation_row (Some (PyText.of_Z (Z.of_nat (n mod 3))))
                  (Some "A1") (Some "I1") (CInt 1))
      (seq 0 1200).

(* ================================================================== *)
(** * Properties *)

(* ------------------------------------------------------------------ *)
(** ** The author-position resolver *)

(** The resolver answers on every cell that is not a float infinity, and
    the answer follows the ordered policy: missing, integer value, role
    word, excluded. *)
Lemma clean_author_position_policy (fr : spec_float -> string) (x : cell) :
  (forall s, x <> CFloat (S754_infinity s)) ->
  clean_author_position fr x =
    Return
      (if pd_isna x then None
       else match py_int x with
            | Return z => Some z
            | Raise _ =>
                let w := PyText.lower (PyText.strip (py_str fr x)) in
                if PyText.mem w ["middle"; "mid"] then Some 2
                else if PyText.mem w ["last"; "corresponding"; "corr"]
                     then Some (-1)
                     else None
            end).
Proof.
  intros Hfin. unfold clean_author_position.
  destruct (pd_isna x) eqn:Hna; [reflexivity|].
  destruct (py_int x) as [z|e] eqn:Hint; [reflexivity|].
  assert (Hc : catches [ValueError; TypeError] e = true).
  { destruct x as [ |z|[sg|sg| |sg m ex]|b|s]; simpl in Hint;
      try discriminate.
    - exfalso; apply (Hfin sg); reflexivity.
    - destruct (PyText.int_literal s); [discriminate|].
      inversion Hint; reflexivity. }
  rewrite Hc.
  destruct (PyText.mem _ ["middle"; "mid"]); [reflexivity|].
  destruct (PyText.mem _ ["last"; "corresponding"; "corr"]); reflexivity.
Qed.

(** The resolver on sample cells: integers, integer texts, role words in
    any case and with blanks around them, floats, and unknown texts. *)
Example clean_author_position_samples (fr : spec_float -> string) :
  map (clean_author_position fr)
      [CInt 1; CStr "1"; CStr "middle"; CStr "last"; CStr "corresponding";
       CStr "unknown"; CNull; CStr " Mid "; CStr "-3"; CStr "1_0"; CStr "1.5";
       CFloat (S754_finite false 5 (-1))]
  = [Return (Some 1); Return (Some 1); Return (Some 2); Return (Some (-1));
     Return (Some (-1)); Return None; Return None; Return (Some 2);
     Return (Some (-3)); Return (Some 10); Return None; Return (Some 2)].
Proof. reflexivity. Qed.

(** C4 (the code departs from it). The resolver is meant to answer on
    every cell, [None] for what it does not recognise; on a float
    infinity [int(position)] raises [OverflowError], which the handler
    for [ValueError] and [TypeError] does not catch, so the call raises. *)
Theorem clean_author_position_infinity_raises
    (fr : spec_float -> string) (sign : bool) :
  clean_author_position fr (CFloat (S754_infinity sign)) =
    Raise (mk_exn OverflowError "cannot convert float infinity to integer")
  /\ map (clean_author_position fr)
         [CInt 1; CStr "1"; CStr "middle"; CStr "last"; CStr "corresponding";
          CStr "unknown"; CNull]
     = map Return [Some 1; Some 1; Some 2; Some (-1); Some (-1); None; None].
Proof. split; reflexivity. Qed.

(* ------------------------------------------------------------------ *)
(** ** The numeric normaliser *)

Lemma forallb_map {X Y : Type} (p : Y -> bool) (g : X -> Y) (xs : list X) :
  forallb p (map g xs) = forallb (fun x => p (g x)) xs.
Proof.
  induction xs as [|x xs IH]; simpl; [reflexivity|]. now rewrite IH.
Qed.

Lemma forallb_ext_in {X : Type} (p q : X -> bool) (xs : list X) :
  (forall x, In x xs -> p x = q x) -> forallb p xs = forallb q xs.
Proof.
  induction xs as [|x xs IH]; simpl; intros Hpq; [reflexivity|].
  rewrite (Hpq x) by now left. f_equal. apply IH. intros; apply Hpq; now right.
Qed.

(** The lists of an array are plain exactly when its leaves turn into
    plain values. *)
Lemma nd_tolist_native_free {L : Type} (leaf : L -> pyval) (a : ndarray L) :
  native_free (nd_tolist leaf a) = nd_forallb (fun x => native_free (leaf x)) a.
Proof.
  induction a as [x|items IH] using ndarray_nested_ind; [reflexivity|].
  cbn [nd_tolist native_free nd_forallb]. rewrite forallb_map.
  apply forallb_ext_in. intros x Hx. rewrite Forall_forall in IH. now apply IH.
Qed.

Lemma nd_forallb_true {L : Type} (a : ndarray L) :
  nd_forallb (fun _ => true) a = true.
Proof.
  induction a as [x|items IH] using ndarray_nested_ind; [reflexivity|].
  cbn [nd_forallb]. apply forallb_forall. intros x Hx.
  rewrite Forall_forall in IH. now apply IH.
Qed.

Lemma tolist_native_free (a : typed_array) :
  native_free (tolist a) = within_reach (NpArray a).
Proof.
  destruct a as [a|a|a|a|a]; cbn [tolist within_reach];
    rewrite nd_tolist_native_free; cbn [native_free];
    try apply nd_forallb_true; reflexivity.
Qed.

(** One pass leaves no native number exactly on the values whose native
    numbers are all within its reach. *)
Lemma convert_numpy_types_reach (v : pyval) :
  native_free (convert_numpy_types v) = within_reach v.
Proof.
  induction v as [ |b|z|f|s|items IH|items|items|entries IH|z|f|x|b|a|a]
    using pyval_nested_ind; try reflexivity.
  - cbn [convert_numpy_types native_free within_reach]. rewrite forallb_map.
    apply forallb_ext_in. intros x Hx. rewrite Forall_forall in IH.
    now apply IH.
  - cbn [convert_numpy_types native_free within_reach]. rewrite forallb_map.
    apply forallb_ext_in. intros [k x] Hx. rewrite Forall_forall in IH.
    f_equal. exact (IH _ Hx).
  - apply tolist_native_free.
  - cbn [convert_numpy_types within_reach]. unfold object_tolist.
    apply nd_tolist_native_free.
Qed.

Lemma convert_numpy_types_plain (v : pyval) :
  native_free v = true -> convert_numpy_types v = v.
Proof.
  induction v as [ |b|z|f|s|items IH|items|items|entries IH|z|f|x|b|a|a]
    using pyval_nested_ind; simpl; intros Hv; try reflexivity;
    try discriminate.
  - f_equal. rewrite forallb_forall in Hv. rewrite Forall_forall in IH.
    rewrite <- (map_id items) at 2. apply map_ext_in.
    intros x Hx. apply IH; auto.
  - f_equal. rewrite forallb_forall in Hv. rewrite Forall_forall in IH.
    rewrite <- (map_id entries) at 2. apply map_ext_in.
    intros [k x] Hx. f_equal. apply (IH _ Hx).
    specialize (Hv _ Hx). cbn in Hv. apply andb_true_iff in Hv. tauto.
Qed.

(** C8 (the code departs from it). The normaliser is meant to convert
    NumPy types recursively, and it does so through a list; a tuple falls
    to the last branch and comes back untouched, with the library-native
    integer still inside. The same branch returns a set as it is; the
    keys of a dict are copied unconverted; and an array of dtype [object]
    is unpacked into a list of its values, NumPy scalars included. *)
Theorem convert_numpy_types_tuple_untouched :
  let v := PTuple [NpInteger 7; PInt 1] in
  convert_numpy_types v = v
  /\ native_free (convert_numpy_types v) = false
  /\ convert_numpy_types (PList [NpInteger 7; PInt 1]) = PList [PInt 7; PInt 1]
  /\ convert_numpy_types (PSet [NpInteger 7]) = PSet [NpInteger 7]
  /\ convert_numpy_types (PDict [(NpInteger 1, NpInteger 2)])
     = PDict [(NpInteger 1, PInt 2)]
  /\ convert_numpy_types (NpObjectArray (NdAxis [NdLeaf (NpInteger 7)]))
     = PList [NpInteger 7]
  /\ ~ (forall w : pyval, native_free (convert_numpy_types w) = true).
Proof.
  repeat split.
  intros Hall. specialize (Hall (PTuple [NpInteger 7; PInt 1])).
  discriminate Hall.
Qed.

(** The dict of every builder holds plain values only, so its pass
    through the normaliser returns it as it is. *)
Lemma network_to_py_native_free {N L : Type} (node_to_py : N -> pyval)
    (link_to_py : L -> pyval) (r : network N L) :
  (forall n, native_free (node_to_py n) = true) ->
  (forall l, native_free (link_to_py l) = true) ->
  native_free (network_to_py node_to_py link_to_py r) = true.
Proof.
  intros Hn Hl. unfold network_to_py.
  assert (Hns : forallb native_free (map node_to_py (nodes r)) = true).
  { apply forallb_forall. intros v Hv. apply in_map_iff in Hv.
    destruct Hv as [n [<- _]]. apply Hn. }
  assert (Hls : forallb native_free (map link_to_py (links r)) = true).
  { apply forallb_forall. intros v Hv. apply in_map_iff in Hv.
    destruct Hv as [l [<- _]]. apply Hl. }
  destruct (error r); simpl; rewrite Hns, Hls; reflexivity.
Qed.

Lemma year_to_py_native_free (y : year_or_unknown) :
  native_free (year_to_py y) = true.
Proof. destruct y; reflexivity. Qed.

Lemma citation_response_plain (fs : filesystem citation_row) (dir : string) :
  citation_response fs dir =
  network_to_py paper_node_to_py citation_link_to_py
    (generate_citation_network fs dir).
Proof.
  apply convert_numpy_types_plain, network_to_py_native_free.
  - intros n. simpl. now rewrite year_to_py_native_free.
  - reflexivity.
Qed.

Lemma enhanced_citation_response_plain (fs : filesystem citation_row)
    (dir : string) :
  enhanced_citation_response fs dir =
  network_to_py enhanced_node_to_py citation_link_to_py
    (generate_enhanced_citation_network fs dir).
Proof.
  apply convert_numpy_types_plain, network_to_py_native_free.
  - intros n. simpl. now rewrite year_to_py_native_free.
  - reflexivity.
Qed.

Lemma collaboration_response_plain (fr : spec_float -> string)
    (fs : filesystem affiliation_row) (dir : string) :
  collaboration_response fr fs dir =
  network_to_py author_node_to_py collab_link_to_py
    (generate_collaboration_network fr fs dir).
Proof.
  apply convert_numpy_types_plain, network_to_py_native_free; reflexivity.
Qed.

(* ------------------------------------------------------------------ *)
(** ** Facts about the column operations *)

Section ColumnFacts.

Context {A : Type} `{Hashable A}.

Lemma eqb_true_iff (x y : A) : eqb x y = true <-> x = y.
Proof. destruct (eqb_spec x y); split; congruence. Qed.

Lemma eqb_false_iff (x y : A) : eqb x y = false <-> x <> y.
Proof. destruct (eqb_spec x y); split; congruence. Qed.

Lemma eqb_reflx (x : A) : eqb x x = true.
Proof. now apply eqb_true_iff. Qed.

Lemma isin_In (x : A) (xs : list A) : isin x xs = true <-> In x xs.
Proof.
  unfold isin. rewrite existsb_exists. split.
  - intros [y [Hy Hxy]]. apply eqb_true_iff in Hxy. now subst.
  - intros Hx. exists x. split; [assumption|apply eqb_reflx].
Qed.

Lemma isin_false (x : A) (xs : list A) : isin x xs = false <-> ~ In x xs.
Proof.
  rewrite <- isin_In. destruct (isin x xs); split; congruence.
Qed.

Lemma unique_In (x : A) (xs : list A) : In x (unique xs) <-> In x xs.
Proof.
  induction xs as [|y xs IH]; simpl; [tauto|].
  rewrite filter_In, IH, negb_true_iff, eqb_false_iff.
  destruct (eqb_spec y x); intuition congruence.
Qed.

Lemma unique_NoDup (xs : list A) : NoDup (unique xs).
Proof.
  induction xs as [|y xs IH]; simpl; constructor.
  - rewrite filter_In, negb_true_iff, eqb_false_iff. intros [_ Hne].
    now apply Hne.
  - now apply NoDup_filter.
Qed.

Lemma filter_filter_comm (p q : A -> bool) (xs : list A) :
  filter p (filter q xs) = filter q (filter p xs).
Proof.
  induction xs as [|x xs IH]; simpl; [reflexivity|].
  destruct (p x) eqn:Hp, (q x) eqn:Hq; simpl; rewrite ?Hp, ?Hq, IH;
    reflexivity.
Qed.

Lemma filter_all (p : A -> bool) (xs : list A) :
  (forall y, In y xs -> p y = true) -> filter p xs = xs.
Proof.
  induction xs as [|x xs IH]; simpl; intros Hp; [reflexivity|].
  rewrite Hp by now left. f_equal. apply IH. intros; apply Hp; now right.
Qed.

Lemma filter_none (p : A -> bool) (xs : list A) :
  (forall y, In y xs -> p y = false) -> filter p xs = [].
Proof.
  induction xs as [|x xs IH]; simpl; intros Hp; [reflexivity|].
  rewrite Hp by now left. apply IH. intros; apply Hp; now right.
Qed.

(** [unique] of a filtered column is the filtered [unique]. *)
Lemma unique_filter (p : A -> bool) (xs : list A) :
  unique (filter p xs) = filter p (unique xs).
Proof.
  induction xs as [|x xs IH]; simpl; [reflexivity|].
  destruct (p x) eqn:Hp; simpl.
  - rewrite IH. f_equal. apply filter_filter_comm.
  - rewrite IH, filter_filter_comm. symmetry.
    apply filter_all. intros y Hy.
    apply filter_In in Hy. destruct Hy as [_ Hy].
    destruct (eqb_spec x y); [congruence|reflexivity].
Qed.

Lemma unique_NoDup_id (xs : list A) : NoDup xs -> unique xs = xs.
Proof.
  induction 1 as [|x xs Hx Hnd IH]; simpl; [reflexivity|].
  rewrite IH. f_equal. apply filter_all.
  intros y Hy. destruct (eqb_spec x y); [congruence|reflexivity].
Qed.

Lemma filter_isin_prefix (l1 l2 : list A) :
  NoDup (l1 ++ l2) -> filter (fun y => isin y l1) (l1 ++ l2) = l1.
Proof.
  intros Hnd. rewrite filter_app.
  rewrite (filter_all _ l1) by (intros y Hy; now apply isin_In).
  rewrite (filter_none _ l2); [apply app_nil_r|].
  intros y Hy. apply isin_false. intros Hin.
  induction l1 as [|a l1 IH]; simpl in *; [tauto|].
  inversion Hnd as [|? ? Ha Hnd']; subst.
  destruct Hin as [->|Hin]; [|now apply IH].
  apply Ha, in_or_app. now right.
Qed.

(** In a column without repeats, the values found in a prefix are the
    prefix. *)
Lemma filter_isin_firstn (n : nat) (xs : list A) :
  NoDup xs -> filter (fun y => isin y (firstn n xs)) xs = firstn n xs.
Proof.
  intros Hnd.
  pose proof (filter_isin_prefix (firstn n xs) (skipn n xs)) as Hp.
  rewrite firstn_skipn in Hp. now apply Hp.
Qed.

End ColumnFacts.

Section SortingFacts.

Context {A : Type} `{Sortable A}.

Lemma insert_sorted_perm (x : A) (xs : list A) :
  Permutation (insert_sorted x xs) (x :: xs).
Proof.
  induction xs as [|y xs IH]; simpl; [reflexivity|].
  destruct (leb x y); [reflexivity|].
  rewrite IH. apply perm_swap.
Qed.

Lemma sorted_perm (xs : list A) : Permutation (sorted xs) xs.
Proof.
  induction xs as [|x xs IH]; simpl; [reflexivity|].
  rewrite insert_sorted_perm. now constructor.
Qed.

Lemma group_keys_In (k : A) (keys : list A) :
  In k (group_keys keys) <-> In k keys.
Proof.
  unfold group_keys. rewrite <- (unique_In k keys). split; intros Hk.
  - exact (Permutation_in _ (sorted_perm _) Hk).
  - exact (Permutation_in _ (Permutation_sym (sorted_perm _)) Hk).
Qed.

Lemma group_keys_NoDup (keys : list A) : NoDup (group_keys keys).
Proof.
  unfold group_keys.
  apply (Permutation_NoDup (Permutation_sym (sorted_perm _))).
  apply unique_NoDup.
Qed.

Lemma groupby_size_keys (keys : list A) :
  map fst (groupby_size keys) = group_keys keys.
Proof.
  unfold groupby_size. rewrite map_map. simpl. apply map_id.
Qed.

End SortingFacts.

(** A loop whose body appends one item per element never raises and
    returns the items in loop order. *)
Lemma for_each_append {A B : Type} (f : A -> B)
    (body : A -> list B -> outcome (list B)) (xs : list A) (acc : list B) :
  (forall x s, In x xs -> body x s = Return (s ++ [f x])) ->
  for_each xs body acc = Return (acc ++ map f xs).
Proof.
  revert acc. induction xs as [|x xs IH]; intros acc Hbody; simpl.
  - now rewrite app_nil_r.
  - rewrite Hbody by now left. simpl.
    rewrite IH by (intros; apply Hbody; now right).
    now rewrite <- app_assoc.
Qed.

(* ------------------------------------------------------------------ *)
(** ** The citation builder *)


Lemma all_paper_ids_In (df : list citation) (x : string) :
  In x (all_paper_ids df) <->
  exists r, In r df /\ (citing_paperid r = x \/ cited_paperid r = x).
Proof.
  unfold all_paper_ids. rewrite unique_In, in_app_iff, !in_map_iff.
  split.
  - intros [[r [Hr Hin]]|[r [Hr Hin]]]; exists r; tauto.
  - intros [r [Hin [Hr|Hr]]]; [left|right]; exists r; tauto.
Qed.

Lemma citation_nodes_ids (df : list citation) :
  map PaperNode.id (citation_nodes df) = all_paper_ids df.
Proof.
  unfold citation_nodes. rewrite map_map. simpl. apply map_id.
Qed.

Lemma enhanced_nodes_ids (df : list citation) :
  map EnhancedNode.id (enhanced_nodes df) = all_paper_ids df.
Proof.
  unfold enhanced_nodes. rewrite map_map. simpl. apply map_id.
Qed.

Lemma existsb_node_id {N : Type} (node_id : N -> string) (ns : list N)
    (x : string) :
  In x (map node_id ns) -> existsb (fun node => eqb (node_id node) x) ns = true.
Proof.
  intros Hx. apply in_map_iff in Hx. destruct Hx as [n [<- Hn]].
  apply existsb_exists. exists n. split; [assumption|apply eqb_reflx].
Qed.

Lemma iloc0_map_filter {R B : Type} (g : R -> B) (p : R -> bool)
    (df : list R) (r : R) (d : B) :
  In r df -> p r = true ->
  iloc0 (map g (filter p df)) = Return (hd d (map g (filter p df))).
Proof.
  intros Hin Hp.
  assert (Hf : In r (filter p df)) by (apply filter_In; tauto).
  destruct (filter p df); [contradiction|reflexivity].
Qed.

Lemma link_groups_In (df : list citation) (cited citing : string) (n : Z) :
  In ((cited, citing), n) (link_groups df) ->
  exists r, In r df /\ cited_paperid r = cited /\ citing_paperid r = citing.
Proof.
  unfold link_groups, groupby_size. intros Hin.
  apply in_map_iff in Hin. destruct Hin as [k [Hk Hin]].
  inversion Hk; subst. apply group_keys_In, in_map_iff in Hin.
  destruct Hin as [r [Hr Hin]]. exists r. inversion Hr. tauto.
Qed.

(** When the node list covers the ids of the records, the link loop
    passes its guard on every group, never raises, and emits one link
    per group. *)
Lemma citation_links_total {N : Type} (node_id : N -> string)
    (ns : list N) (df : list citation) :
  (forall x, In x (all_paper_ids df) -> In x (map node_id ns)) ->
  citation_links node_id ns df =
    Return (map (link_of_group df) (link_groups df)).
Proof.
  intros Hcover. unfold citation_links.
  rewrite (for_each_append (link_of_group df)); [reflexivity|].
  intros [[cited citing] n] s Hin.
  destruct (link_groups_In _ _ _ _ Hin) as [r [Hr [Hcited Hciting]]].
  rewrite !existsb_node_id; simpl.
  - rewrite (iloc0_map_filter year _ df r 0 Hr)
      by (simpl; rewrite Hciting; apply String.eqb_refl).
    simpl.
    rewrite (iloc0_map_filter ref_year _ df r 0 Hr)
      by (simpl; rewrite Hcited; apply String.eqb_refl).
    reflexivity.
  - apply Hcover, all_paper_ids_In. exists r. tauto.
  - apply Hcover, all_paper_ids_In. exists r. tauto.
Qed.

(** On a table that loads, the citation builder succeeds with the nodes
    of the cleaned frame and one link per group. *)
Lemma generate_citation_network_table (fs : filesystem citation_row)
    (dir : string) (rows : list citation_row) :
  fs (citation_csv_path dir) = Some (Table rows) ->
  generate_citation_network fs dir =
    success (citation_nodes (clean_citations rows))
            (map (link_of_group (clean_citations rows))
                 (link_groups (clean_citations rows))).
Proof.
  intros Hfs. unfold generate_citation_network, os_path_exists, pd_read_csv.
  rewrite Hfs. simpl.
  rewrite citation_links_total; [reflexivity|].
  intros x Hx. now rewrite citation_nodes_ids.
Qed.

Lemma generate_enhanced_citation_network_table (fs : filesystem citation_row)
    (dir : string) (rows : list citation_row) :
  fs (citation_csv_path dir) = Some (Table rows) ->
  generate_enhanced_citation_network fs dir =
    success (enhanced_nodes (clean_citations rows))
            (map (link_of_group (clean_citations rows))
                 (link_groups (clean_citations rows))).
Proof.
  intros Hfs.
  unfold generate_enhanced_citation_network, os_path_exists, pd_read_csv.
  rewrite Hfs. simpl.
  rewrite citation_links_total; [reflexivity|].
  intros x Hx. now rewrite enhanced_nodes_ids.
Qed.




(** The end-to-end sample of the specification: nodes P1 (count 0) and
    P2 (count 2), and the single edge from P2 to P1 with value 2. *)
Example generate_citation_network_sample :
  generate_citation_network sample_citation_fs "/srv/app" =
  success
    [PaperNode.mk "P1" "Paper_P1" (Year 2021) 0
       "Yeshiva University, Computer Science Department";
     PaperNode.mk "P2" "Paper_P2" (Year 2021) 2
       "Yeshiva University, Computer Science Department"]
    [CitationLink.mk "P2" "P1" 2 2021 2021 0].
Proof. reflexivity. Qed.

Lemma find_hd_filter {R : Type} (p : R -> bool) (df : list R) :
  find p df = hd_error (filter p df).
Proof.
  induction df as [|r df IH]; simpl; [reflexivity|].
  destruct (p r); [reflexivity|exact IH].
Qed.

Lemma occurrences_map {R K : Type} `{Hashable K} (g : R -> K) (k : K)
    (df : list R) :
  occurrences k (map g df) = List.length (filter (fun r => eqb k (g r)) df).
Proof.
  unfold occurrences. induction df as [|r df IH]; simpl; [reflexivity|].
  destruct (eqb k (g r)); simpl; now rewrite IH.
Qed.



(* ------------------------------------------------------------------ *)
(** ** The enhanced builder against the citation builder *)

Lemma enhanced_nodes_base (df : list citation) :
  map base_node (enhanced_nodes df) = citation_nodes df.
Proof.
  unfold enhanced_nodes, citation_nodes. rewrite map_map. reflexivity.
Qed.

(** C6. On every input the enhanced builder returns what the citation
    builder returns, with two more fields on each node: the same error,
    the same links, the same nodes field by field in the same order, and
    on each node [topic] is "Computer Science" and [impact_score] is the
    binary64 value of [citation_count * 0.8 + 2.0]. *)
Theorem enhanced_extends_citation (fs : filesystem citation_row)
    (dir : string) :
  let base := generate_citation_network fs dir in
  let enhanced := generate_enhanced_citation_network fs dir in
  error enhanced = error base
  /\ links enhanced = links base
  /\ map base_node (nodes enhanced) = nodes base
  /\ Forall (fun n =>
               EnhancedNode.topic n = "Computer Science"
               /\ EnhancedNode.impact_score n =
                  PyFloat.add
                    (PyFloat.mul (PyFloat.of_int (EnhancedNode.citation_count n))
                                 PyFloat.lit_0_8)
                    PyFloat.lit_2_0)
            (nodes enhanced).
Proof.
  intros base enhanced.
  destruct (fs (citation_csv_path dir)) as [[e|rows]|] eqn:Hfs.
  - subst base enhanced.
    unfold generate_citation_network, generate_enhanced_citation_network,
      os_path_exists, pd_read_csv.
    rewrite Hfs. simpl. repeat split; constructor.
  - subst base enhanced.
    rewrite (generate_citation_network_table fs dir rows Hfs).
    rewrite (generate_enhanced_citation_network_table fs dir rows Hfs).
    simpl. repeat split.
    + apply enhanced_nodes_base.
    + apply Forall_forall. intros n Hn. unfold enhanced_nodes in Hn.
      apply in_map_iff in Hn. destruct Hn as [x [<- _]]. split; reflexivity.
  - subst base enhanced.
    unfold generate_citation_network, generate_enhanced_citation_network,
      os_path_exists.
    rewrite Hfs. simpl. repeat split; constructor.
Qed.

(** The impact score of the end-to-end sample: 2.0 for no citation and
    the binary64 value 3.6 for two. *)
Example generate_enhanced_citation_network_sample :
  map EnhancedNode.impact_score
      (nodes (generate_enhanced_citation_network sample_citation_fs "/srv/app"))
  = [S754_finite false 4503599627370496 (-51);
     S754_finite false 8106479329266893 (-51)].
Proof. reflexivity. Qed.

(* ------------------------------------------------------------------ *)
(** ** A missing source table *)

(** C7. When the table a builder looks for does not exist, the builder
    returns the error dict: an [error] text that ends with the path it
    searched, no node and no link. The builders are total functions into
    [network]: no raise reaches the caller. The same holds for the
    collaboration and the enhanced builder with their paths. *)
Theorem missing_table_error_shape (fr : spec_float -> string)
    (citations : filesystem citation_row)
    (affiliations : filesystem affiliation_row) (dir : string) :
  (citations (citation_csv_path dir) = None ->
     generate_citation_network citations dir =
       mk_network
         (Some ("The CSV file for the citation network could not be found. Please check the path: "
                +++ citation_csv_path dir)) [] []
     /\ generate_enhanced_citation_network citations dir =
       mk_network
         (Some ("The CSV file for the citation network could not be found. Please check the path: "
                +++ citation_csv_path dir)) [] [])
  /\ (affiliations (affils_csv_path dir) = None ->
     generate_collaboration_network fr affiliations dir =
       mk_network
         (Some ("The CSV file for the author collaboration network could not be found.："
                +++ affils_csv_path dir)) [] []).
Proof.
  split.
  - intros Hfs.
    unfold generate_citation_network, generate_enhanced_citation_network,
      os_path_exists.
    rewrite Hfs. split; reflexivity.
  - intros Hfs. unfold generate_collaboration_network, os_path_exists.
    rewrite Hfs. reflexivity.
Qed.

Lemma missing_table_error_shape_witness :
  let dir := "/srv/app" in
  generate_citation_network (fun _ => None) dir =
    mk_network
      (Some "The CSV file for the citation network could not be found. Please check the path: /srv/app/refs_yeshiva_cs_20_25.csv")
      [] []
  /\ generate_enhanced_citation_network (fun _ => None) dir =
    mk_network
      (Some "The CSV file for the citation network could not be found. Please check the path: /srv/app/refs_yeshiva_cs_20_25.csv")
      [] []
  /\ generate_collaboration_network (fun _ => "") (fun _ => None) dir =
    mk_network
      (Some "The CSV file for the author collaboration network could not be found.：/srv/app/affils_yeshiva_cs_20_25.csv")
      [] [].
Proof.
  intro dir.
  destruct (missing_table_error_shape (fun _ => "") (fun _ => None)
              (fun _ => None) dir) as [Hc Ha].
  destruct (Hc eq_refl) as [H1 H2].
  split; [exact H1|]. split; [exact H2|exact (Ha eq_refl)].
Defined.

(* ------------------------------------------------------------------ *)
(** ** The collaboration builder *)

Lemma groupby_nunique_keys {R K V : Type} `{Sortable K} `{Hashable V}
    (key : R -> K) (value : R -> V) (rows : list R) :
  map fst (groupby_nunique key value rows) = group_keys (map key rows).
Proof.
  unfold groupby_nunique. rewrite map_map. simpl. apply map_id.
Qed.

Lemma groupby_nunique_nonneg {R K V : Type} `{Sortable K} `{Hashable V}
    (key : R -> K) (value : R -> V) (rows : list R) (k : K) (n : Z) :
  In (k, n) (groupby_nunique key value rows) -> 0 <= n.
Proof.
  unfold groupby_nunique. intros Hin. apply in_map_iff in Hin.
  destruct Hin as [k' [Hk _]]. inversion Hk. lia.
Qed.

(** One node per author of the cleaned frame, in sorted order. *)
Lemma collaboration_nodes_ids (df : list affiliation) :
  map AuthorNode.id (collaboration_nodes df) = group_keys (map authorid df).
Proof.
  unfold collaboration_nodes, author_attrs.
  rewrite filter_all.
  - rewrite !map_map. rewrite <- (groupby_nunique_keys authorid paperid df).
    apply map_ext. now intros [a n].
  - intros [[[a n] f] c] Hin. apply in_map_iff in Hin.
    destruct Hin as [[a' n'] [Heq Hin]]. inversion Heq; subst.
    apply Z.leb_le. eapply groupby_nunique_nonneg. exact Hin.
Qed.

Lemma collaboration_links_endpoints (ns : list AuthorNode.t)
    (counts : list ((string * string) * Z)) (l : CollabLink.t) :
  In l (collaboration_links ns counts) ->
  In (CollabLink.source l) (map AuthorNode.id ns)
  /\ In (CollabLink.target l) (map AuthorNode.id ns).
Proof.
  unfold collaboration_links. intros Hin. apply in_flat_map in Hin.
  destruct Hin as [[[source target] n] [_ Hl]].
  destruct (isin source _) eqn:Hs; [|contradiction].
  destruct (isin target _) eqn:Ht; [|contradiction].
  destruct Hl as [<-|[]]. simpl. split; now apply isin_In.
Qed.

(** The shapes the collaboration builder can return on a table that
    loads: the error dict, or the nodes of the cleaned frame with the
    links of its pair counts. *)
Lemma generate_collaboration_network_table (fr : spec_float -> string)
    (fs : filesystem affiliation_row) (dir : string)
    (rows : list affiliation_row) :
  fs (affils_csv_path dir) = Some (Table rows) ->
  generate_collaboration_network fr fs dir =
    match clean_affiliations fr (sample_papers rows) with
    | Raise e =>
        failure ("Author collaboration network data processing failed：" +++ exn_str e)
    | Return df_clean =>
        match collaboration_counts (collaboration_pairs df_clean) with
        | Raise e =>
            failure ("Author collaboration network data processing failed：" +++ exn_str e)
        | Return counts =>
            success (collaboration_nodes df_clean)
                    (collaboration_links (collaboration_nodes df_clean) counts)
        end
    end.
Proof.
  intros Hfs. unfold generate_collaboration_network, os_path_exists, pd_read_csv.
  rewrite Hfs. simpl.
  destruct (clean_affiliations fr (sample_papers rows)) as [df|e]; simpl;
    [|reflexivity].
  destruct (collaboration_counts (collaboration_pairs df)); reflexivity.
Qed.

Lemma failure_well_formed {N L : Type} (node_id : N -> string)
    (source target : L -> string) (message : string) :
  let result : network N L := failure message in
  NoDup (map node_id (nodes result))
  /\ (forall l, In l (links result) ->
        In (source l) (map node_id (nodes result))
        /\ In (target l) (map node_id (nodes result))).
Proof. simpl. split; [constructor|contradiction]. Qed.

(** C9. For every input and each of the three builders, the node ids of
    the result are pairwise distinct and both endpoints of every edge are
    ids of nodes of that result. (An error result has no node and no
    edge.) *)
Theorem node_ids_unique_and_edges_closed (fr : spec_float -> string)
    (citations : filesystem citation_row)
    (affiliations : filesystem affiliation_row) (dir : string) :
  (let result := generate_citation_network citations dir in
   NoDup (map PaperNode.id (nodes result))
   /\ (forall l, In l (links result) ->
         In (CitationLink.source l) (map PaperNode.id (nodes result))
         /\ In (CitationLink.target l) (map PaperNode.id (nodes result))))
  /\ (let result := generate_enhanced_citation_network citations dir in
      NoDup (map EnhancedNode.id (nodes result))
      /\ (forall l, In l (links result) ->
            In (CitationLink.source l) (map EnhancedNode.id (nodes result))
            /\ In (CitationLink.target l) (map EnhancedNode.id (nodes result))))
  /\ (let result := generate_collaboration_network fr affiliations dir in
      NoDup (map AuthorNode.id (nodes result))
      /\ (forall l, In l (links result) ->
            In (CollabLink.source l) (map AuthorNode.id (nodes result))
            /\ In (CollabLink.target l) (map AuthorNode.id (nodes result)))).
Proof.
  assert (Hlinks : forall df l,
            In l (map (link_of_group df) (link_groups df)) ->
            In (CitationLink.source l) (all_paper_ids df)
            /\ In (CitationLink.target l) (all_paper_ids df)).
  { intros df l Hl. apply in_map_iff in Hl.
    destruct Hl as [[[cited citing] n] [<- Hin]]. simpl.
    destruct (link_groups_In _ _ _ _ Hin) as [r [Hr [Hcited Hciting]]].
    split; apply all_paper_ids_In; exists r; tauto. }
  split; [|split].
  - destruct (citations (citation_csv_path dir)) as [[e|rows]|] eqn:Hfs.
    + unfold generate_citation_network, os_path_exists, pd_read_csv.
      rewrite Hfs. apply failure_well_formed.
    + rewrite (generate_citation_network_table _ _ _ Hfs). simpl.
      rewrite citation_nodes_ids. split; [apply unique_NoDup|apply Hlinks].
    + unfold generate_citation_network, os_path_exists.
      rewrite Hfs. apply failure_well_formed.
  - destruct (citations (citation_csv_path dir)) as [[e|rows]|] eqn:Hfs.
    + unfold generate_enhanced_citation_network, os_path_exists, pd_read_csv.
      rewrite Hfs. apply failure_well_formed.
    + rewrite (generate_enhanced_citation_network_table _ _ _ Hfs). simpl.
      rewrite enhanced_nodes_ids. split; [apply unique_NoDup|apply Hlinks].
    + unfold generate_enhanced_citation_network, os_path_exists.
      rewrite Hfs. apply failure_well_formed.
  - destruct (affiliations (affils_csv_path dir)) as [[e|rows]|] eqn:Hfs.
    + unfold generate_collaboration_network, os_path_exists, pd_read_csv.
      rewrite Hfs. apply failure_well_formed.
    + rewrite (generate_collaboration_network_table _ _ _ _ Hfs).
      destruct (clean_affiliations fr (sample_papers rows)) as [df|e];
        [|apply failure_well_formed].
      destruct (collaboration_counts (collaboration_pairs df)) as [counts|e];
        [|apply failure_well_formed].
      simpl. split.
      * rewrite collaboration_nodes_ids. apply group_keys_NoDup.
      * apply collaboration_links_endpoints.
    + unfold generate_collaboration_network, os_path_exists.
      rewrite Hfs. apply failure_well_formed.
Qed.

Lemma flat_map_nil {X Y : Type} (f : X -> list Y) (xs : list X) :
  (forall x, In x xs -> f x = []) -> flat_map f xs = [].
Proof.
  induction xs as [|x xs IH]; simpl; intros Hf; [reflexivity|].
  rewrite (Hf x) by now left. apply IH. intros; apply Hf; now right.
Qed.

Lemma collaboration_pairs_none (df : list affiliation) :
  (forall paper authors, In (paper, authors) (paper_authors df) ->
                         (List.length authors < 2)%nat) ->
  collaboration_pairs df = [].
Proof.
  intros Hsmall. unfold collaboration_pairs. apply flat_map_nil.
  intros [paper authors] Hin.
  rewrite (Permutation_length (sorted_perm authors)).
  apply Hsmall, Nat.leb_gt in Hin. now rewrite Hin.
Qed.

(** C10. Whenever the cleaned rows hold no paper with two or more author
    rows (every paper has exactly one author, say), the collaboration
    builder returns the error dict and not the author nodes it computed
    with an empty link list: the pair list is empty, grouping the frame
    built from it raises [KeyError], and the handler turns that into the
    error dict. *)
Theorem collaboration_without_pairs_is_error (fr : spec_float -> string)
    (fs : filesystem affiliation_row) (dir : string)
    (rows : list affiliation_row) (df_clean : list affiliation) :
  fs (affils_csv_path dir) = Some (Table rows) ->
  clean_affiliations fr (sample_papers rows) = Return df_clean ->
  (forall paper authors, In (paper, authors) (paper_authors df_clean) ->
                         (List.length authors < 2)%nat) ->
  collaboration_counts (collaboration_pairs df_clean)
    = Raise (mk_exn KeyError "'source_author'")
  /\ generate_collaboration_network fr fs dir =
     mk_network
       (Some "Author collaboration network data processing failed：'source_author'")
       [] []
  /\ generate_collaboration_network fr fs dir
     <> success (collaboration_nodes df_clean) [].
Proof.
  intros Hfs Hclean Hsmall.
  rewrite (generate_collaboration_network_table _ _ _ _ Hfs), Hclean.
  rewrite (collaboration_pairs_none _ Hsmall). simpl.
  repeat split. discriminate.
Qed.

Lemma collaboration_without_pairs_is_error_witness :
  let df_clean := [mk_affiliation "P1" "A1" 1; mk_affiliation "P2" "A2" (-1)] in
  List.length (collaboration_nodes df_clean) = 2%nat
  /\ generate_collaboration_network (fun _ => "") single_author_fs "/srv/app" =
     mk_network
       (Some "Author collaboration network data processing failed：'source_author'")
       [] [].
Proof.
  intro df_clean. split; [reflexivity|].
  refine (proj1 (proj2 (collaboration_without_pairs_is_error (fun _ => "")
            single_author_fs "/srv/app" single_author_rows df_clean
            eq_refl eq_refl _))).
  intros paper authors Hin.
  vm_compute in Hin.
  destruct Hin as [Heq|[Heq|[]]]; inversion Heq; simpl; lia.
Defined.

(* ------------------------------------------------------------------ *)
(** ** The sampling cap *)

Lemma map_filter_key {R K : Type} (key : R -> K) (q : K -> bool) (rows : list R) :
  map key (filter (fun r => q (key r)) rows) = filter q (map key rows).
Proof.
  induction rows as [|r rows IH]; simpl; [reflexivity|].
  destruct (q (key r)); simpl; now rewrite IH.
Qed.

Lemma filter_idem {R : Type} (p : R -> bool) (rows : list R) :
  filter p (filter p rows) = filter p rows.
Proof.
  apply filter_all. intros r Hr. apply filter_In in Hr. tauto.
Qed.

Lemma unique_length_le {K : Type} `{Hashable K} (keys : list K) :
  (List.length (unique keys) <= List.length keys)%nat.
Proof.
  induction keys as [|k keys IH]; simpl; [lia|].
  pose proof (filter_length_le (fun y => negb (eqb k y)) (unique keys)). lia.
Qed.

(** The distinct paper ids of the rows kept for a prefix of the distinct
    ids are that prefix. *)
Lemma unique_kept_prefix (n : nat) (rows : list affiliation_row) :
  unique (map raw_paperid
            (filter (fun r => isin (raw_paperid r)
                                (firstn n (unique (map raw_paperid rows))))
                    rows))
  = firstn n (unique (map raw_paperid rows)).
Proof.
  rewrite (map_filter_key raw_paperid
             (fun k => isin k (firstn n (unique (map raw_paperid rows))))).
  rewrite unique_filter. apply filter_isin_firstn, unique_NoDup.
Qed.

(** Sampling the kept rows again changes nothing. *)
Lemma sample_papers_kept (rows : list affiliation_row) :
  let kept := filter (fun r => isin (raw_paperid r)
                         (firstn sample_size (unique (map raw_paperid rows))))
                     rows in
  sample_papers kept = kept.
Proof.
  intro kept. unfold sample_papers.
  destruct (sample_size <? List.length kept)%nat; [|reflexivity].
  unfold kept at 1. rewrite unique_kept_prefix.
  rewrite firstn_all2 by (rewrite length_firstn; lia).
  apply filter_idem.
Qed.

(** X19. When the [paperid] column of the affiliation table has more
    than 1000 distinct values (a missing cell is one value, as [unique]
    counts it), the builder works on the rows whose cell is among the
    first 1000 distinct values in input order and on no other row: the
    distinct values of the rows it keeps are exactly those 1000, and its
    result is the result on the table of the kept rows alone. *)
Theorem sampling_cap_first_thousand (fr : spec_float -> string)
    (rows : list affiliation_row) :
  let ids := unique (map raw_paperid rows) in
  let kept := filter (fun r => isin (raw_paperid r) (firstn 1000 ids)) rows in
  (1000 < List.length ids)%nat ->
  sample_papers rows = kept
  /\ unique (map raw_paperid kept) = firstn 1000 ids
  /\ List.length (unique (map raw_paperid kept)) = 1000%nat
  /\ (forall r, In r kept <-> In r rows /\ In (raw_paperid r) (firstn 1000 ids))
  /\ (forall (fs fs' : filesystem affiliation_row) (dir : string),
        fs (affils_csv_path dir) = Some (Table rows) ->
        fs' (affils_csv_path dir) = Some (Table kept) ->
        generate_collaboration_network fr fs dir =
        generate_collaboration_network fr fs' dir).
Proof.
  intros ids kept Hmany.
  assert (Hsample : sample_papers rows = kept).
  { unfold sample_papers.
    pose proof (unique_length_le (map raw_paperid rows)) as Hle.
    rewrite length_map in Hle. fold ids in Hle.
    assert (Hlt : (sample_size <? List.length rows)%nat = true)
      by (apply Nat.ltb_lt; unfold sample_size; lia).
    rewrite Hlt. reflexivity. }
  assert (Hunique : unique (map raw_paperid kept) = firstn 1000 ids)
    by apply unique_kept_prefix.
  split; [exact Hsample|]. split; [exact Hunique|]. split; [|split].
  - rewrite Hunique, length_firstn. lia.
  - intros r. unfold kept. rewrite filter_In, isin_In. reflexivity.
  - intros fs fs' dir Hfs Hfs'.
    rewrite (generate_collaboration_network_table _ _ _ _ Hfs).
    rewrite (generate_collaboration_network_table _ _ _ _ Hfs').
    rewrite Hsample.
    replace (sample_papers kept) with kept
      by (symmetry; exact (sample_papers_kept rows)).
    reflexivity.
Qed.

Lemma sampling_cap_first_thousand_witness :
  (1000 < List.length (unique (map raw_paperid many_paper_rows)))%nat
  /\ List.length (unique (map raw_paperid (sample_papers many_paper_rows)))
     = 1000%nat.
Proof.
  assert (Hmany : (1000 < List.length (unique (map raw_paperid many_paper_rows)))%nat).
  { apply (proj1 (Nat.ltb_lt 1000
             (List.length (unique (map raw_paperid many_paper_rows))))).
    vm_compute. reflexivity. }
  split; [exact Hmany|].
  destruct (sampling_cap_first_thousand (fun _ => "") many_paper_rows Hmany)
    as [Hsample [_ [Hcount _]]].
  rewrite Hsample. exact Hcount.
Defined.

(** On that table the builder keeps the first 1000 rows. *)
Example sample_papers_many_paper_rows :
  sample_papers many_paper_rows = firstn 1000 many_paper_rows.
Proof. vm_compute. reflexivity. Qed.

(** C5 (the code departs from it). The cap is taken over the distinct
    values of the [paperid] column before the rows without a paper id
    are dropped, so a missing cell takes one of the 1000 places. The
    table [missing_paperid_rows] has 1001 distinct paper ids after a
    first row without one, and paper 1000 is the 1000th of them (index
    999); the builder keeps that first row and the rows of the first 999
    paper ids only, drops both rows of paper 1000, and returns neither
    its authors A3 and A4 nor their edge, which the rows of the first
    1000 distinct paper ids give. *)
Theorem sampling_cap_missing_paperid :
  let fr := fun _ : spec_float => "" in
  let rows := missing_paperid_rows in
  let result := generate_collaboration_network fr missing_paperid_fs "/srv/app" in
  let claimed := generate_collaboration_network fr first_papers_fs "/srv/app" in
  List.length (distinct_paper_ids rows) = 1001%nat
  /\ nth_error (distinct_paper_ids rows) 999 = Some "1000"
  /\ hd_error (map raw_paperid (sample_papers rows)) = Some None
  /\ distinct_paper_ids (sample_papers rows)
     = firstn 999 (distinct_paper_ids rows)
  /\ filter (fun r => eqb (raw_paperid r) (Some "1000")) (sample_papers rows)
     = []
  /\ error result = None
  /\ map AuthorNode.id (nodes result) = ["A1"; "A2"]
  /\ links result = [CollabLink.mk "A1" "A2" 1 1]
  /\ error claimed = None
  /\ map AuthorNode.id (nodes claimed) = ["A1"; "A2"; "A3"; "A4"]
  /\ links claimed
     = [CollabLink.mk "A1" "A2" 1 1; CollabLink.mk "A3" "A4" 1 1].
Proof. vm_compute. repeat split. Qed.

(* ------------------------------------------------------------------ *)
(** ** Collaboration edges *)

(** C1 (the code departs from it). The pair loop takes the author column
    of a paper row by row, so an author with two rows on a paper is
    paired with itself and twice with each co-author: on the table
    above the builder emits an edge from A to A, whose source is not
    below its target, and an edge from A to B of value 2 although A and B
    share one paper. *)
Theorem collaboration_repeated_author_rows :
  let result :=
    generate_collaboration_network (fun _ => "") repeated_author_fs "/srv/app" in
  let df_clean :=
    [mk_affiliation "P1" "A" 1; mk_affiliation "P1" "A" 1;
     mk_affiliation "P1" "B" (-1)] in
  clean_affiliations (fun _ => "") (sample_papers repeated_author_rows)
    = Return df_clean
  /\ links result = [CollabLink.mk "A" "A" 1 1; CollabLink.mk "A" "B" 2 2]
  /\ String.ltb "A" "A" = false
  /\ shared_papers df_clean "A" "B" = 1.
Proof. repeat split. Qed.

(** *** Edges of a frame in which no author row repeats

    The rest of this section shows that the repeat of an author on a
    paper is the only way the edges can leave the data model: on a
    cleaned frame with at most one row per (paper, author), every edge
    has its source below its target and counts the shared papers. *)

Module TextOrder.

Lemma ltb_lt (a b : string) : String.ltb a b = true <-> String_as_OT.lt a b.
Proof.
  rewrite <- String_as_OT.cmp_lt. unfold String.ltb, String_as_OT.cmp.
  destruct (String.compare a b); split; congruence.
Qed.

Lemma leb_cases (a b : string) :
  String.leb a b = true <-> a = b \/ String.ltb a b = true.
Proof.
  unfold String.leb, String.ltb.
  destruct (String.compare a b) eqn:Hc; split; try tauto; try congruence.
  - intros _. left. now apply String.compare_eq_iff.
  - intros [->|Hf]; [|discriminate].
    assert (Hr : String_as_OT.cmp b b = Eq) by now apply String_as_OT.cmp_eq.
    unfold String_as_OT.cmp in Hr. congruence.
Qed.

Lemma ltb_trans (a b c : string) :
  String.ltb a b = true -> String.ltb b c = true -> String.ltb a c = true.
Proof. rewrite !ltb_lt. apply String_as_OT.lt_trans. Qed.

Lemma ltb_irrefl (a : string) : String.ltb a a = false.
Proof.
  destruct (String.ltb a a) eqn:Hl; [|reflexivity].
  apply ltb_lt, String_as_OT.lt_not_eq in Hl.
  exfalso. apply Hl. reflexivity.
Qed.

Lemma leb_trans (a b c : string) :
  String.leb a b = true -> String.leb b c = true -> String.leb a c = true.
Proof.
  rewrite !leb_cases. intros [->|Hab] [->|Hbc]; auto.
  right. eapply ltb_trans; eassumption.
Qed.

Lemma leb_false (a b : string) :
  String.leb a b = false -> String.leb b a = true.
Proof.
  intros Hf. destruct (String.leb_total a b) as [Ht|Ht]; congruence.
Qed.

(** [sorted] on texts returns a list in increasing order. *)
Lemma insert_sorted_sorted (x : string) (xs : list string) :
  StronglySorted (fun a b => String.leb a b = true) xs ->
  StronglySorted (fun a b => String.leb a b = true) (insert_sorted x xs).
Proof.
  induction 1 as [|y xs Hs IH Hall]; simpl.
  - repeat constructor.
  - destruct (String.leb x y) eqn:Hxy.
    + constructor; [now constructor|]. constructor; [exact Hxy|].
      eapply Forall_impl; [|exact Hall].
      intros z Hyz. eapply leb_trans; eassumption.
    + constructor; [exact IH|].
      apply Forall_forall. intros z Hz.
      apply (Permutation_in _ (insert_sorted_perm x xs)) in Hz.
      destruct Hz as [<-|Hz]; [now apply leb_false|].
      rewrite Forall_forall in Hall. now apply Hall.
Qed.

Lemma sorted_sorted (xs : list string) :
  StronglySorted (fun a b => String.leb a b = true) (sorted xs).
Proof.
  induction xs as [|x xs IH]; simpl; [constructor|].
  now apply insert_sorted_sorted.
Qed.

(** Without repeats the order is strict. *)
Lemma sorted_strict (xs : list string) :
  NoDup xs ->
  StronglySorted (fun a b => String.ltb a b = true) (sorted xs).
Proof.
  intros Hnd.
  assert (Hnd' : NoDup (sorted xs))
    by (apply (Permutation_NoDup (Permutation_sym (sorted_perm xs))), Hnd).
  pose proof (sorted_sorted xs) as Hs.
  induction Hs as [|y l Hs IH Hall]; [constructor|].
  inversion Hnd' as [|? ? Hy Hl]; subst.
  constructor; [now apply IH|].
  rewrite Forall_forall in *. intros z Hz.
  destruct (proj1 (leb_cases y z) (Hall z Hz)) as [->|Hlt];
    [contradiction|exact Hlt].
Qed.

End TextOrder.

Section Combinations.

Context {A : Type}.

Lemma combinations2_In (xs : list A) (a b : A) :
  In (a, b) (combinations2 xs) -> In a xs /\ In b xs.
Proof.
  induction xs as [|x xs IH]; simpl; [contradiction|].
  rewrite in_app_iff, in_map_iff.
  intros [[y [Hy Hin]]|Hin].
  - inversion Hy; subst. tauto.
  - apply IH in Hin. tauto.
Qed.

(** In a list sorted for [R], the first item of a pair is [R]-below the
    second. *)
Lemma combinations2_sorted (R : A -> A -> Prop) (xs : list A) (a b : A) :
  StronglySorted R xs -> In (a, b) (combinations2 xs) -> R a b.
Proof.
  induction 1 as [|x xs Hs IH Hall]; simpl; [contradiction|].
  rewrite in_app_iff, in_map_iff.
  intros [[y [Hy Hin]]|Hin]; [|now apply IH].
  inversion Hy; subst. rewrite Forall_forall in Hall. now apply Hall.
Qed.

(** Every two items in [R]-order are paired, for a strict order [R]. *)
Lemma combinations2_complete (R : A -> A -> Prop) (xs : list A) (a b : A) :
  (forall x, ~ R x x) -> (forall x y, R x y -> R y x -> False) ->
  StronglySorted R xs -> In a xs -> In b xs -> R a b ->
  In (a, b) (combinations2 xs).
Proof.
  intros Hirr Hasym. induction 1 as [|x xs Hs IH Hall]; simpl;
    [contradiction|].
  intros Ha Hb Hab. rewrite in_app_iff, in_map_iff.
  rewrite Forall_forall in Hall.
  destruct Ha as [Ha|Ha], Hb as [Hb|Hb].
  - exfalso. subst. exact (Hirr _ Hab).
  - left. exists b. split; [now rewrite Ha|exact Hb].
  - exfalso. apply (Hasym a b Hab). rewrite <- Hb. now apply Hall.
  - right. now apply IH.
Qed.

Lemma combinations2_NoDup (xs : list A) :
  NoDup xs -> NoDup (combinations2 xs).
Proof.
  induction 1 as [|x xs Hx Hnd IH]; simpl; [constructor|].
  apply NoDup_app.
  - clear IH Hx. induction Hnd as [|y ys Hy Hnd IH]; simpl; constructor.
    + rewrite in_map_iff. intros [z [Hz Hin]]. inversion Hz; subst.
      contradiction.
    + exact IH.
  - exact IH.
  - intros [a b] Hin Hin'. apply in_map_iff in Hin.
    destruct Hin as [y [Hy _]]. inversion Hy; subst.
    apply combinations2_In in Hin'. tauto.
Qed.

End Combinations.

Section Counting.

Context {K : Type} `{Hashable K}.

Lemma occurrences_absent (k : K) (xs : list K) :
  ~ In k xs -> occurrences k xs = 0%nat.
Proof.
  intros Hk. unfold occurrences. rewrite filter_none; [reflexivity|].
  intros y Hy. apply eqb_false_iff. congruence.
Qed.

Lemma occurrences_NoDup (k : K) (xs : list K) :
  NoDup xs -> occurrences k xs = if isin k xs then 1%nat else 0%nat.
Proof.
  induction 1 as [|x xs Hx Hnd IH]; [reflexivity|].
  unfold occurrences, isin in *. simpl.
  destruct (eqb_spec k x) as [->|Hne]; simpl; [|exact IH].
  fold (occurrences x xs). now rewrite occurrences_absent.
Qed.

Lemma occurrences_app (k : K) (xs ys : list K) :
  occurrences k (xs ++ ys) = (occurrences k xs + occurrences k ys)%nat.
Proof. unfold occurrences. now rewrite filter_app, length_app. Qed.

(** Over lists without repeats, a value occurs in the concatenation once
    for each list that holds it. *)
Lemma occurrences_flat_map {X : Type} (g : X -> list K) (k : K) (xs : list X) :
  (forall x, In x xs -> NoDup (g x)) ->
  occurrences k (flat_map g xs)
  = List.length (filter (fun x => isin k (g x)) xs).
Proof.
  induction xs as [|x xs IH]; simpl; intros Hnd; [reflexivity|].
  rewrite occurrences_app, IH by (intros; apply Hnd; now right).
  rewrite occurrences_NoDup by (apply Hnd; now left).
  destruct (isin k (g x)); reflexivity.
Qed.

End Counting.

Lemma filter_length_perm {X : Type} (f : X -> bool) (xs ys : list X) :
  Permutation xs ys ->
  List.length (filter f xs) = List.length (filter f ys).
Proof.
  induction 1 as [|x xs ys _ IH|x y xs|xs ys zs _ IH1 _ IH2]; simpl.
  - reflexivity.
  - destruct (f x); simpl; now rewrite IH.
  - destruct (f x), (f y); reflexivity.
  - now rewrite IH1.
Qed.

Lemma combinations2_short {X : Type} (xs : list X) :
  (List.length xs < 2)%nat -> combinations2 xs = [].
Proof.
  destruct xs as [|x [|y xs]]; simpl; intros Hlen; try reflexivity; lia.
Qed.

Lemma pair_keys_flat_map (df : list affiliation) :
  pair_keys df =
  flat_map (fun paper => combinations2 (sorted (authors_of df paper)))
           (group_keys (map paperid df)).
Proof.
  unfold pair_keys, collaboration_pairs, paper_authors, groupby_list.
  fold (authors_of df).
  induction (group_keys (map paperid df)) as [|paper papers IH];
    [reflexivity|].
  cbn [map flat_map]. rewrite map_app, IH. f_equal.
  fold (authors_of df paper).
  destruct (2 <=? List.length (sorted (authors_of df paper)))%nat eqn:Hlen.
  - rewrite map_map. cbn [source_author target_author].
    rewrite <- (map_id (combinations2 _)) at 2.
    apply map_ext. now intros [a b].
  - apply Nat.leb_gt in Hlen. now rewrite combinations2_short.
Qed.

Lemma authors_of_In (df : list affiliation) (a paper : string) :
  In a (authors_of df paper) <-> appears_on df a paper = true.
Proof.
  unfold authors_of, appears_on. rewrite in_map_iff, existsb_exists.
  split; intros [r Hr]; exists r.
  - destruct Hr as [Ha Hin]. apply filter_In in Hin. destruct Hin as [Hin Hp].
    split; [exact Hin|]. simpl in Hp. rewrite Hp, Ha. simpl.
    apply String.eqb_refl.
  - destruct Hr as [Hin Hpa]. apply andb_true_iff in Hpa.
    destruct Hpa as [Hp Ha]. apply String.eqb_eq in Ha.
    split; [exact Ha|]. apply filter_In. split; [exact Hin|exact Hp].
Qed.

(** At most one row per (paper, author): the authors of a paper are
    pairwise distinct. *)
Lemma authors_of_NoDup (df : list affiliation) (paper : string) :
  NoDup (map (fun r => (paperid r, authorid r)) df) ->
  NoDup (authors_of df paper).
Proof.
  unfold authors_of.
  induction df as [|r df IH]; simpl; intros Hnd; [constructor|].
  inversion Hnd as [|? ? Hr Hnd']; subst.
  destruct (String.eqb_spec (paperid r) paper) as [Hp|Hp]; [|now apply IH].
  simpl. constructor; [|now apply IH].
  intros Hin. apply Hr. apply in_map_iff in Hin.
  destruct Hin as [r' [Ha Hin]]. apply filter_In in Hin.
  destruct Hin as [Hin Hp']. simpl in Hp'. apply String.eqb_eq in Hp'.
  apply in_map_iff. exists r'. split; [congruence|exact Hin].
Qed.

Section NoRepeat.

Variable df : list affiliation.
Hypothesis one_row_per_author :
  NoDup (map (fun r => (paperid r, authorid r)) df).

Lemma sorted_authors_strict (paper : string) :
  StronglySorted (fun a b => String.ltb a b = true)
                 (sorted (authors_of df paper)).
Proof. apply TextOrder.sorted_strict, authors_of_NoDup, one_row_per_author. Qed.

Lemma pair_keys_ordered (a b : string) :
  In (a, b) (pair_keys df) -> String.ltb a b = true.
Proof.
  rewrite pair_keys_flat_map, in_flat_map. intros [paper [_ Hin]].
  exact (combinations2_sorted _ _ a b (sorted_authors_strict paper) Hin).
Qed.

Lemma pair_of_paper (paper a b : string) :
  String.ltb a b = true ->
  isin (a, b) (combinations2 (sorted (authors_of df paper)))
  = appears_on df a paper && appears_on df b paper.
Proof.
  intros Hab. apply eq_true_iff_eq.
  rewrite isin_In, andb_true_iff, <- !authors_of_In. split.
  - intros Hin. apply combinations2_In in Hin.
    destruct Hin as [Ha Hb]. split.
    + exact (Permutation_in _ (sorted_perm _) Ha).
    + exact (Permutation_in _ (sorted_perm _) Hb).
  - intros [Ha Hb].
    apply (combinations2_complete (fun x y => String.ltb x y = true)).
    + intros x Hx. rewrite TextOrder.ltb_irrefl in Hx. discriminate.
    + intros x y Hxy Hyx.
      pose proof (TextOrder.ltb_trans _ _ _ Hxy Hyx) as Hxx.
      rewrite TextOrder.ltb_irrefl in Hxx. discriminate.
    + apply sorted_authors_strict.
    + exact (Permutation_in _ (Permutation_sym (sorted_perm _)) Ha).
    + exact (Permutation_in _ (Permutation_sym (sorted_perm _)) Hb).
    + exact Hab.
Qed.

(** The number of pair items for [(a, b)] is the number of papers the
    two authors share. *)
Lemma pair_count_shared (a b : string) :
  String.ltb a b = true ->
  Z.of_nat (occurrences (a, b) (pair_keys df)) = shared_papers df a b.
Proof.
  intros Hab. unfold shared_papers. f_equal.
  rewrite pair_keys_flat_map, occurrences_flat_map.
  - unfold group_keys.
    rewrite (filter_length_perm _ _ _ (sorted_perm (unique (map paperid df)))).
    f_equal. apply filter_ext. intros paper. now apply pair_of_paper.
  - intros paper _. apply combinations2_NoDup.
    apply (Permutation_NoDup (Permutation_sym (sorted_perm _))).
    apply authors_of_NoDup, one_row_per_author.
Qed.

End NoRepeat.

Lemma collaboration_links_keys (ns : list AuthorNode.t)
    (keys : list (string * string)) :
  map (fun l => (CollabLink.source l, CollabLink.target l))
      (collaboration_links ns (groupby_size keys))
  = filter (fun k => isin (fst k) (map AuthorNode.id ns)
                     && isin (snd k) (map AuthorNode.id ns))
           (group_keys keys).
Proof.
  unfold collaboration_links, groupby_size.
  induction (group_keys keys) as [|[a b] ks IH]; [reflexivity|].
  cbn [map flat_map filter fst snd]. rewrite map_app, IH.
  destruct (isin a (map AuthorNode.id ns) && isin b (map AuthorNode.id ns));
    reflexivity.
Qed.

Lemma collaboration_links_values (ns : list AuthorNode.t)
    (keys : list (string * string)) (l : CollabLink.t) :
  In l (collaboration_links ns (groupby_size keys)) ->
  In (CollabLink.source l, CollabLink.target l) keys
  /\ CollabLink.value l
     = Z.of_nat (occurrences (CollabLink.source l, CollabLink.target l) keys)
  /\ CollabLink.co_authored_papers l = CollabLink.value l.
Proof.
  unfold collaboration_links, groupby_size. intros Hin.
  apply in_flat_map in Hin. destruct Hin as [[[a b] n] [Hrow Hl]].
  apply in_map_iff in Hrow. destruct Hrow as [k [Hk Hkeys]].
  inversion Hk; subst k n. rewrite group_keys_In in Hkeys.
  destruct (isin a _ && isin b _); [|contradiction].
  destruct Hl as [<-|[]]. simpl. repeat split. exact Hkeys.
Qed.

Lemma occurrences_positive {K : Type} `{Hashable K} (k : K) (xs : list K) :
  (0 < occurrences k xs)%nat -> In k xs.
Proof.
  intros Hpos. destruct (isin k xs) eqn:Hk; [now apply isin_In|].
  apply isin_false in Hk. rewrite occurrences_absent in Hpos by exact Hk. lia.
Qed.

Lemma pair_keys_authors (df : list affiliation) (a b : string) :
  In (a, b) (pair_keys df) ->
  In a (map authorid df) /\ In b (map authorid df).
Proof.
  rewrite pair_keys_flat_map, in_flat_map. intros [paper [_ Hin]].
  apply combinations2_In in Hin. destruct Hin as [Ha Hb].
  apply (Permutation_in _ (sorted_perm _)) in Ha, Hb.
  unfold authors_of in Ha, Hb. rewrite in_map_iff in Ha, Hb.
  destruct Ha as [ra [Hra Ha]], Hb as [rb [Hrb Hb]].
  apply filter_In in Ha, Hb. split; apply in_map_iff.
  - exists ra. tauto.
  - exists rb. tauto.
Qed.

(** X13. When the cleaned frame has at most one row per (paper, author),
    the collaboration edges follow the data model: source below target,
    [value] and [co_authored_papers] equal to the number of papers the
    two authors share, one edge for every pair of authors that share a
    paper, and no pair twice. *)
Lemma collaboration_edges_without_repeats (fr : spec_float -> string)
    (fs : filesystem affiliation_row) (dir : string)
    (rows : list affiliation_row) (df : list affiliation) :
  fs (affils_csv_path dir) = Some (Table rows) ->
  clean_affiliations fr (sample_papers rows) = Return df ->
  NoDup (map (fun r => (paperid r, authorid r)) df) ->
  let result := generate_collaboration_network fr fs dir in
  let endpoints := fun l => (CollabLink.source l, CollabLink.target l) in
  (forall l, In l (links result) ->
     String.ltb (CollabLink.source l) (CollabLink.target l) = true
     /\ CollabLink.co_authored_papers l = CollabLink.value l
     /\ CollabLink.value l
        = shared_papers df (CollabLink.source l) (CollabLink.target l))
  /\ (forall a b, String.ltb a b = true -> 0 < shared_papers df a b ->
        In (a, b) (map endpoints (links result)))
  /\ NoDup (map endpoints (links result)).
Proof.
  intros Hfs Hclean Hnd result endpoints. subst result.
  rewrite (generate_collaboration_network_table _ _ _ _ Hfs), Hclean.
  assert (Hin_keys : forall a b, String.ltb a b = true ->
            0 < shared_papers df a b -> In (a, b) (pair_keys df)).
  { intros a b Hab Hpos. rewrite <- (pair_count_shared df Hnd a b Hab) in Hpos.
    apply occurrences_positive. lia. }
  destruct (collaboration_pairs df) as [|p ps] eqn:Hpairs.
  - simpl. split; [contradiction|]. split; [|constructor].
    intros a b Hab Hpos. specialize (Hin_keys a b Hab Hpos).
    unfold pair_keys in Hin_keys. now rewrite Hpairs in Hin_keys.
  - assert (Hcounts : collaboration_counts (p :: ps)
                      = Return (groupby_size (pair_keys df)))
      by (unfold pair_keys; now rewrite Hpairs).
    rewrite Hcounts. cbn [links nodes success].
    split; [|split].
    + intros l Hl. apply collaboration_links_values in Hl.
      destruct Hl as [Hkey [Hval Hco]].
      pose proof (pair_keys_ordered df Hnd _ _ Hkey) as Hlt.
      split; [exact Hlt|]. split; [exact Hco|].
      rewrite Hval. now apply pair_count_shared.
    + intros a b Hab Hpos. specialize (Hin_keys a b Hab Hpos).
      unfold endpoints. rewrite collaboration_links_keys.
      apply filter_In. split; [now apply group_keys_In|].
      destruct (pair_keys_authors df a b Hin_keys) as [Ha Hb].
      rewrite collaboration_nodes_ids. cbn [fst snd].
      apply andb_true_iff. split; apply isin_In, group_keys_In; assumption.
    + unfold endpoints. rewrite collaboration_links_keys.
      apply NoDup_filter, group_keys_NoDup.
Qed.

(** A table without repeated author rows: the edges of its three pairs. *)
Example generate_collaboration_network_sample :
  let fs : filesystem affiliation_row := fun _ =>
    Some (Table
      [mk_affiliation_row (Some "P1") (Some "B") (Some "I1") (CInt 1);
       mk_affiliation_row (Some "P1") (Some "A") (Some "I1") (CFloat (S754_finite false 1 1));
       mk_affiliation_row (Some "P2") (Some "A") (Some "I1") (CStr "last");
       mk_affiliation_row (Some "P2") (Some "B") (Some "I1") (CStr "1");
       mk_affiliation_row (Some "P2") (Some "C") (Some "I1") (CStr "middle");
       mk_affiliation_row (Some "P3") (Some "D") (Some "I1") (CStr "unknown");
       mk_affiliation_row (Some " ") (Some "E") (Some "I1") (CInt 1)]) in
  links (generate_collaboration_network (fun _ => "") fs "/srv/app")
  = [CollabLink.mk "A" "B" 2 2; CollabLink.mk "A" "C" 1 1;
     CollabLink.mk "B" "C" 1 1]
  /\ map AuthorNode.id
         (nodes (generate_collaboration_network (fun _ => "") fs "/srv/app"))
     = ["A"; "B"; "C"].
Proof. split; reflexivity. Qed.

(* ================================================================== *)
(** * Further properties of the builders *)

(* ------------------------------------------------------------------ *)
(** ** Citation nodes and edges *)

Lemma find_filter_cons {R : Type} (p : R -> bool) (df : list R) :
  match filter p df with
  | r :: _ => find p df = Some r
  | [] => find p df = None
  end.
Proof.
  rewrite find_hd_filter. now destruct (filter p df).
Qed.

Lemma clean_citations_years (rows : list citation_row) (r : citation) :
  In r (clean_citations rows) -> 2020 <= year r <= 2025.
Proof.
  unfold clean_citations. intros Hin. apply filter_In in Hin.
  destruct Hin as [_ Hy]. apply andb_true_iff in Hy.
  destruct Hy as [H1 H2]. apply Z.leb_le in H1, H2. lia.
Qed.

(** X1. On every citation table that loads, no node carries the
    "Unknown" year: a paper that cites takes the [year] of its first
    retained record as citing paper, which lies in 2020..2025, and a
    paper that is only cited takes the [ref_year] of the first retained
    record citing it. Each node is named "Paper_" followed by its id. *)
Theorem citation_publish_year_known (fs : filesystem citation_row)
    (dir : string) (rows : list citation_row) :
  fs (citation_csv_path dir) = Some (Table rows) ->
  let retained := clean_citations rows in
  forall n, In n (nodes (generate_citation_network fs dir)) ->
    PaperNode.publish_year n <> Unknown
    /\ PaperNode.name n = "Paper_" +++ PaperNode.id n
    /\ ((exists r,
           find (fun r => String.eqb (citing_paperid r) (PaperNode.id n)) retained
             = Some r
           /\ PaperNode.publish_year n = Year (year r)
           /\ 2020 <= year r <= 2025)
        \/ (find (fun r => String.eqb (citing_paperid r) (PaperNode.id n)) retained
              = None
            /\ exists r,
                 find (fun r => String.eqb (cited_paperid r) (PaperNode.id n))
                      retained = Some r
                 /\ PaperNode.publish_year n = Year (ref_year r))).
Proof.
  intros Hfs retained n Hn.
  rewrite (generate_citation_network_table fs dir rows Hfs) in Hn.
  cbn [nodes success] in Hn. fold retained in Hn.
  unfold citation_nodes in Hn. apply in_map_iff in Hn.
  destruct Hn as [x [<- Hx]]. cbn [PaperNode.publish_year PaperNode.name PaperNode.id].
  apply all_paper_ids_In in Hx. destruct Hx as [r0 [Hr0 Hx]].
  unfold publish_year_of.
  pose proof (find_filter_cons (fun r => String.eqb (citing_paperid r) x) retained)
    as Hciting.
  pose proof (find_filter_cons (fun r => String.eqb (cited_paperid r) x) retained)
    as Hcited.
  change (fun r : citation => eqb (citing_paperid r) x)
    with (fun r : citation => String.eqb (citing_paperid r) x).
  change (fun r : citation => eqb (cited_paperid r) x)
    with (fun r : citation => String.eqb (cited_paperid r) x).
  destruct (filter (fun r => String.eqb (citing_paperid r) x) retained)
    as [|r1 rest1] eqn:Hf1.
  - destruct (filter (fun r => String.eqb (cited_paperid r) x) retained)
      as [|r2 rest2] eqn:Hf2.
    + exfalso. destruct Hx as [Hx|Hx].
      * assert (Hin : In r0 (filter (fun r => String.eqb (citing_paperid r) x)
                                    retained))
          by (apply filter_In; split; [exact Hr0|now apply String.eqb_eq]).
        rewrite Hf1 in Hin. contradiction.
      * assert (Hin : In r0 (filter (fun r => String.eqb (cited_paperid r) x)
                                    retained))
          by (apply filter_In; split; [exact Hr0|now apply String.eqb_eq]).
        rewrite Hf2 in Hin. contradiction.
    + split; [discriminate|]. split; [reflexivity|]. right.
      split; [exact Hciting|]. exists r2. split; [exact Hcited|reflexivity].
  - split; [discriminate|]. split; [reflexivity|]. left.
    exists r1. split; [exact Hciting|]. split; [reflexivity|].
    apply (clean_citations_years rows).
    assert (Hin : In r1 (filter (fun r => String.eqb (citing_paperid r) x)
                                retained)) by (rewrite Hf1; now left).
    apply filter_In in Hin. tauto.
Qed.

Lemma citation_publish_year_known_witness :
  Forall (fun n => PaperNode.publish_year n <> Unknown)
         (nodes (generate_citation_network sample_citation_fs "/srv/app")).
Proof.
  apply Forall_forall. intros n Hn.
  exact (proj1 (citation_publish_year_known sample_citation_fs "/srv/app"
                  sample_citation_rows eq_refl n Hn)).
Defined.

Lemma publish_year_of_citing (df : list citation) (r : citation) :
  In r df ->
  publish_year_of df (citing_paperid r)
  = Year (first_citing_year df (citing_paperid r)).
Proof.
  intros Hr. unfold publish_year_of, first_citing_year.
  assert (Hin : In r (filter (fun r0 => eqb (citing_paperid r0) (citing_paperid r))
                             df))
    by (apply filter_In; split; [exact Hr|apply eqb_reflx]).
  destruct (filter _ df); [contradiction|reflexivity].
Qed.

(** X2. On every citation table that loads, the [citing_year] of each
    edge lies in 2020..2025 and is the [publish_year] of the node of the
    edge's target, and the edge's source has a node as well. *)
Theorem citation_edge_years_match_nodes (fs : filesystem citation_row)
    (dir : string) (rows : list citation_row) :
  fs (citation_csv_path dir) = Some (Table rows) ->
  let result := generate_citation_network fs dir in
  forall l, In l (links result) ->
    2020 <= CitationLink.citing_year l <= 2025
    /\ (exists n, In n (nodes result)
                  /\ PaperNode.id n = CitationLink.target l
                  /\ PaperNode.publish_year n = Year (CitationLink.citing_year l))
    /\ (exists n, In n (nodes result)
                  /\ PaperNode.id n = CitationLink.source l).
Proof.
  intros Hfs result l Hl. subst result.
  rewrite (generate_citation_network_table fs dir rows Hfs) in *.
  cbn [nodes links success] in *.
  set (df := clean_citations rows) in *.
  apply in_map_iff in Hl. destruct Hl as [[[cited citing] k] [<- Hin]].
  destruct (link_groups_In _ _ _ _ Hin) as [r [Hr [Hcited Hciting]]].
  cbn [link_of_group CitationLink.citing_year CitationLink.target
       CitationLink.source].
  assert (Hids : forall x, In x (all_paper_ids df) ->
            exists n, In n (citation_nodes df) /\ PaperNode.id n = x).
  { intros x Hx. rewrite <- citation_nodes_ids in Hx.
    apply in_map_iff in Hx. destruct Hx as [n [Hn Hin']]. now exists n. }
  split; [|split].
  - unfold first_citing_year.
    assert (Hf : In r (filter (fun r0 => eqb (citing_paperid r0) citing) df))
      by (apply filter_In; split; [exact Hr|];
          rewrite Hciting; apply eqb_reflx).
    destruct (filter (fun r0 => eqb (citing_paperid r0) citing) df)
      as [|r1 rest] eqn:Hf1; [contradiction|].
    cbn [map hd]. apply (clean_citations_years rows).
    assert (Hin1 : In r1 (filter (fun r0 => eqb (citing_paperid r0) citing) df))
      by (rewrite Hf1; now left).
    apply filter_In in Hin1. tauto.
  - exists (PaperNode.mk citing ("Paper_" +++ citing) (publish_year_of df citing)
              (Z.of_nat (List.length
                 (filter (fun r0 => eqb (cited_paperid r0) citing) df)))
              "Yeshiva University, Computer Science Department").
    split; [|split; [reflexivity|]].
    + unfold citation_nodes. apply in_map_iff. exists citing.
      split; [reflexivity|]. apply all_paper_ids_In. exists r. tauto.
    + cbn [PaperNode.publish_year]. rewrite <- Hciting.
      now apply publish_year_of_citing.
  - apply Hids, all_paper_ids_In. exists r. tauto.
Qed.

Lemma citation_edge_years_match_nodes_witness :
  Forall (fun l => 2020 <= CitationLink.citing_year l <= 2025)
         (links (generate_citation_network sample_citation_fs "/srv/app")).
Proof.
  apply Forall_forall. intros l Hl.
  exact (proj1 (citation_edge_years_match_nodes sample_citation_fs "/srv/app"
                  sample_citation_rows eq_refl l Hl)).
Defined.

Section Totals.

Context {K : Type} `{Hashable K}.

Lemma total_app (xs ys : list Z) : total (xs ++ ys) = total xs + total ys.
Proof.
  unfold total. induction xs as [|x xs IH]; simpl; [reflexivity|].
  rewrite IH. lia.
Qed.

Lemma eqb_symm (x y : K) : eqb x y = eqb y x.
Proof.
  destruct (eqb_spec x y), (eqb_spec y x); congruence.
Qed.

(** Over keys without repeats that cover the column, the numbers of
    occurrences add up to the length of the column. *)
Lemma total_occurrences (ks keys : list K) :
  NoDup ks -> (forall k, In k keys -> In k ks) ->
  total (map (fun k => Z.of_nat (occurrences k keys)) ks)
  = Z.of_nat (List.length keys).
Proof.
  intros Hnd. induction keys as [|x keys IH]; intros Hcover.
  - clear Hnd Hcover. induction ks as [|k ks IHk]; [reflexivity|].
    unfold total, occurrences in *. simpl in *. exact IHk.
  - assert (Hsplit : forall l,
              total (map (fun k => Z.of_nat (occurrences k (x :: keys))) l)
              = Z.of_nat (occurrences x l)
                + total (map (fun k => Z.of_nat (occurrences k keys)) l)).
    { induction l as [|k l IHl]; [reflexivity|].
      cbn [map]. unfold total in *. cbn [fold_right]. rewrite IHl.
      unfold occurrences. cbn [filter].
      rewrite (eqb_symm x k).
      destruct (eqb k x); cbn [List.length]; lia. }
    rewrite Hsplit, IH by (intros; apply Hcover; now right).
    rewrite occurrences_NoDup by exact Hnd.
    assert (Hx : isin x ks = true) by (apply isin_In, Hcover; now left).
    rewrite Hx. cbn [List.length]. lia.
Qed.

Lemma total_perm (xs ys : list Z) : Permutation xs ys -> total xs = total ys.
Proof.
  unfold total.
  induction 1 as [|x xs ys _ IH|x y xs|xs ys zs _ IH1 _ IH2]; simpl; lia.
Qed.

End Totals.

Lemma occurrences_present {K : Type} `{Hashable K} (k : K) (xs : list K) :
  In k xs -> (1 <= occurrences k xs)%nat.
Proof.
  unfold occurrences. induction xs as [|x xs IH]; simpl; [contradiction|].
  intros [->|Hin].
  - rewrite eqb_reflx. simpl. lia.
  - destruct (eqb k x); simpl; [lia|now apply IH].
Qed.

(** X3. On every citation table that loads, each retained record is
    counted once on the node side and once on the edge side: the
    [citation_count] values of the nodes add up to the number of retained
    records, so do the [value]s of the edges, and every edge has a value
    of at least 1. *)
Theorem citation_counts_add_up (fs : filesystem citation_row)
    (dir : string) (rows : list citation_row) :
  fs (citation_csv_path dir) = Some (Table rows) ->
  let retained := clean_citations rows in
  let result := generate_citation_network fs dir in
  total (map PaperNode.citation_count (nodes result))
    = Z.of_nat (List.length retained)
  /\ total (map CitationLink.value (links result))
     = Z.of_nat (List.length retained)
  /\ (forall l, In l (links result) -> 1 <= CitationLink.value l).
Proof.
  intros Hfs retained result. subst result.
  rewrite (generate_citation_network_table fs dir rows Hfs).
  cbn [nodes links success]. fold retained.
  assert (Hvalues : map CitationLink.value
                      (map (link_of_group retained) (link_groups retained))
                    = map (fun k => Z.of_nat (occurrences k
                             (map (fun r => (cited_paperid r, citing_paperid r))
                                  retained)))
                          (group_keys
                             (map (fun r => (cited_paperid r, citing_paperid r))
                                  retained))).
  { unfold link_groups, groupby_size. rewrite !map_map.
    apply map_ext. now intros [cited citing]. }
  split; [|split].
  - unfold citation_nodes. rewrite map_map. cbn [PaperNode.citation_count].
    rewrite <- (length_map cited_paperid retained).
    rewrite <- (total_occurrences (all_paper_ids retained)
                  (map cited_paperid retained)).
    + f_equal. apply map_ext. intros x. rewrite occurrences_map.
      do 2 f_equal. apply filter_ext. intros r. apply eqb_symm.
    + apply unique_NoDup.
    + intros k Hk. apply in_map_iff in Hk. destruct Hk as [r [<- Hr]].
      apply all_paper_ids_In. exists r. tauto.
  - rewrite Hvalues, total_occurrences.
    + now rewrite length_map.
    + apply group_keys_NoDup.
    + intros k Hk. now apply group_keys_In.
  - intros l Hl. apply in_map_iff in Hl.
    destruct Hl as [[[cited citing] n] [<- Hin]].
    cbn [link_of_group CitationLink.value].
    unfold link_groups, groupby_size in Hin. apply in_map_iff in Hin.
    destruct Hin as [k [Hk Hkeys]]. inversion Hk; subst k n.
    rewrite group_keys_In in Hkeys.
    pose proof (occurrences_present _ _ Hkeys). lia.
Qed.

Lemma citation_counts_add_up_witness :
  total (map PaperNode.citation_count
           (nodes (generate_citation_network sample_citation_fs "/srv/app")))
    = 2
  /\ total (map CitationLink.value
              (links (generate_citation_network sample_citation_fs "/srv/app")))
     = 2.
Proof.
  destruct (citation_counts_add_up sample_citation_fs "/srv/app"
              sample_citation_rows eq_refl) as [Hn [Hl _]].
  split; [exact Hn|exact Hl].
Defined.

(* ------------------------------------------------------------------ *)
(** ** Failures *)

(** X4. No builder returns a partial graph: whenever the dict of a
    builder carries an [error], its [nodes] and its [links] are empty. *)
Theorem error_result_is_empty (fr : spec_float -> string)
    (citations : filesystem citation_row)
    (affiliations : filesystem affiliation_row) (dir : string) :
  (let result := generate_citation_network citations dir in
   error result <> None -> nodes result = [] /\ links result = [])
  /\ (let result := generate_enhanced_citation_network citations dir in
      error result <> None -> nodes result = [] /\ links result = [])
  /\ (let result := generate_collaboration_network fr affiliations dir in
      error result <> None -> nodes result = [] /\ links result = []).
Proof.
  split; [|split].
  - destruct (citations (citation_csv_path dir)) as [[e|rows]|] eqn:Hfs.
    + unfold generate_citation_network, os_path_exists, pd_read_csv.
      rewrite Hfs. now split.
    + rewrite (generate_citation_network_table _ _ _ Hfs). simpl. congruence.
    + unfold generate_citation_network, os_path_exists.
      rewrite Hfs. now split.
  - destruct (citations (citation_csv_path dir)) as [[e|rows]|] eqn:Hfs.
    + unfold generate_enhanced_citation_network, os_path_exists, pd_read_csv.
      rewrite Hfs. now split.
    + rewrite (generate_enhanced_citation_network_table _ _ _ Hfs). simpl.
      congruence.
    + unfold generate_enhanced_citation_network, os_path_exists.
      rewrite Hfs. now split.
  - destruct (affiliations (affils_csv_path dir)) as [[e|rows]|] eqn:Hfs.
    + unfold generate_collaboration_network, os_path_exists, pd_read_csv.
      rewrite Hfs. now split.
    + rewrite (generate_collaboration_network_table _ _ _ _ Hfs).
      destruct (clean_affiliations fr (sample_papers rows)) as [df|e];
        [|now split].
      destruct (collaboration_counts (collaboration_pairs df)) as [counts|e];
        [|now split].
      simpl. congruence.
    + unfold generate_collaboration_network, os_path_exists.
      rewrite Hfs. now split.
Qed.

Lemma error_result_is_empty_witness :
  let result :=
    generate_collaboration_network (fun _ => "") single_author_fs "/srv/app" in
  error result <> None /\ nodes result = [] /\ links result = [].
Proof.
  intro result.
  assert (Herr : error result <> None) by (vm_compute; discriminate).
  split; [exact Herr|].
  exact (proj2 (proj2 (error_result_is_empty (fun _ => "") (fun _ => None)
                         single_author_fs "/srv/app")) Herr).
Defined.

(** X5. The two citation builders fail only on the file: the build has
    no [error] exactly when the table loads, whatever its rows; when
    reading the file raises, the [error] text is "Data processing
    failed: " followed by the text of the exception. *)
Theorem citation_builders_fail_only_on_file (fs : filesystem citation_row)
    (dir : string) :
  (error (generate_citation_network fs dir) = None
     <-> exists rows, fs (citation_csv_path dir) = Some (Table rows))
  /\ (error (generate_enhanced_citation_network fs dir) = None
     <-> exists rows, fs (citation_csv_path dir) = Some (Table rows))
  /\ (forall e, fs (citation_csv_path dir) = Some (Unreadable e) ->
        generate_citation_network fs dir
          = mk_network (Some ("Data processing failed: " +++ exn_str e)) [] []
        /\ generate_enhanced_citation_network fs dir
          = mk_network (Some ("Data processing failed: " +++ exn_str e)) [] []).
Proof.
  destruct (fs (citation_csv_path dir)) as [[e|rows]|] eqn:Hfs.
  - unfold generate_citation_network, generate_enhanced_citation_network,
      os_path_exists, pd_read_csv.
    rewrite Hfs. simpl. split; [|split].
    + split; [discriminate|]. intros [rows Hrows]. discriminate.
    + split; [discriminate|]. intros [rows Hrows]. discriminate.
    + intros e' He'. inversion He'. split; reflexivity.
  - rewrite (generate_citation_network_table _ _ _ Hfs).
    rewrite (generate_enhanced_citation_network_table _ _ _ Hfs). simpl.
    split; [|split].
    + split; [intros _; now exists rows|reflexivity].
    + split; [intros _; now exists rows|reflexivity].
    + intros e' He'. discriminate.
  - unfold generate_citation_network, generate_enhanced_citation_network,
      os_path_exists.
    rewrite Hfs. simpl. split; [|split].
    + split; [discriminate|]. intros [rows Hrows]. discriminate.
    + split; [discriminate|]. intros [rows Hrows]. discriminate.
    + intros e' He'. discriminate.
Qed.

Lemma citation_builders_fail_only_on_file_witness :
  let e := mk_exn ValueError "Integer column has NA values in column 2" in
  let fs : filesystem citation_row := fun _ => Some (Unreadable e) in
  generate_citation_network fs "/srv/app"
  = mk_network
      (Some "Data processing failed: Integer column has NA values in column 2")
      [] [].
Proof.
  intros e fs.
  exact (proj1 (proj2 (proj2 (citation_builders_fail_only_on_file fs "/srv/app"))
                  e eq_refl)).
Defined.

(* ------------------------------------------------------------------ *)
(** ** Cleaning of the affiliation table *)

Lemma clean_author_position_infinite (fr : spec_float -> string) (x : cell) :
  is_infinite x = true ->
  clean_author_position fr x =
    Raise (mk_exn OverflowError "cannot convert float infinity to integer").
Proof.
  destruct x as [ |z|[sg|sg| |sg m ex]|b|s]; try discriminate. reflexivity.
Qed.

Lemma clean_author_position_finite (fr : spec_float -> string) (x : cell) :
  is_infinite x = false -> exists p, clean_author_position fr x = Return p.
Proof.
  intros Hfin. eexists. apply clean_author_position_policy.
  intros s ->. discriminate.
Qed.

Lemma apply_each_raise {X Y : Type} (f : X -> outcome Y) (e : exn)
    (xs : list X) :
  (forall x e', f x = Raise e' -> e' = e) ->
  (exists x, In x xs /\ f x = Raise e) ->
  apply_each f xs = Raise e.
Proof.
  intros Honly. induction xs as [|x xs IH]; intros [x0 [Hin Hx0]];
    [contradiction|].
  simpl. destruct (f x) as [y|e'] eqn:Hfx.
  - destruct Hin as [->|Hin]; [congruence|].
    simpl. rewrite IH by (exists x0; tauto). reflexivity.
  - simpl. now rewrite (Honly x e' Hfx).
Qed.

Lemma apply_each_return {X Y : Type} (f : X -> outcome Y) (xs : list X) :
  (forall x, In x xs -> exists y, f x = Return y) ->
  exists ys, apply_each f xs = Return ys.
Proof.
  induction xs as [|x xs IH]; intros Hall; [now exists []|].
  destruct (Hall x (or_introl eq_refl)) as [y Hy].
  destruct IH as [ys Hys]; [intros; apply Hall; now right|].
  exists (y :: ys). simpl. rewrite Hy. simpl. rewrite Hys. reflexivity.
Qed.

(** X6. On an affiliation table that loads, one float infinity in the
    [author_position] column of the sampled rows makes the whole build
    fail with the text of the [OverflowError]; without such a cell the
    cleaning succeeds, and the build fails exactly when the cleaned frame
    yields no pair. *)
Theorem collaboration_build_outcomes (fr : spec_float -> string)
    (fs : filesystem affiliation_row) (dir : string)
    (rows : list affiliation_row) :
  fs (affils_csv_path dir) = Some (Table rows) ->
  let sampled := sample_papers rows in
  let result := generate_collaboration_network fr fs dir in
  (existsb (fun r => is_infinite (author_position r)) sampled = true ->
     result = mk_network
       (Some "Author collaboration network data processing failed：cannot convert float infinity to integer")
       [] [])
  /\ (existsb (fun r => is_infinite (author_position r)) sampled = false ->
      exists df_clean,
        clean_affiliations fr sampled = Return df_clean
        /\ (collaboration_pairs df_clean = [] ->
              result = mk_network
                (Some "Author collaboration network data processing failed：'source_author'")
                [] [])
        /\ (collaboration_pairs df_clean <> [] ->
              error result = None
              /\ nodes result = collaboration_nodes df_clean)).
Proof.
  intros Hfs sampled result. subst result.
  rewrite (generate_collaboration_network_table _ _ _ _ Hfs). fold sampled.
  split.
  - intros Hinf. apply existsb_exists in Hinf. destruct Hinf as [r [Hr Hinf]].
    unfold clean_affiliations.
    rewrite (apply_each_raise (clean_author_position fr)
               (mk_exn OverflowError "cannot convert float infinity to integer")).
    + reflexivity.
    + intros x e' He'. destruct (is_infinite x) eqn:Hx.
      * rewrite (clean_author_position_infinite fr x Hx) in He'. congruence.
      * destruct (clean_author_position_finite fr x Hx) as [p Hp]. congruence.
    + exists (author_position r). split; [now apply in_map|].
      now apply clean_author_position_infinite.
  - intros Hfin. unfold clean_affiliations.
    destruct (apply_each_return (clean_author_position fr)
                (map author_position sampled)) as [positions Hpos].
    { intros x Hx. apply in_map_iff in Hx. destruct Hx as [r [<- Hr]].
      apply clean_author_position_finite.
      destruct (is_infinite (author_position r)) eqn:Hi; [|reflexivity].
      assert (Ht : existsb (fun r => is_infinite (author_position r)) sampled
                   = true)
        by (apply existsb_exists; now exists r).
      congruence. }
    rewrite Hpos. cbn [bind].
    eexists. split; [reflexivity|]. split.
    + intros Hnil. rewrite Hnil. reflexivity.
    + intros Hpairs.
      destruct (collaboration_pairs _) as [|p ps]; [contradiction|].
      split; reflexivity.
Qed.

(** A table whose second row holds a float infinity as position. *)
Lemma collaboration_build_outcomes_witness :
  let rows :=
    [mk_affiliation_row (Some "P1") (Some "A") (Some "I1") (CInt 1);
     mk_affiliation_row (Some "P1") (Some "B") (Some "I1")
       (CFloat (S754_infinity false))] in
  let fs : filesystem affiliation_row := fun _ => Some (Table rows) in
  generate_collaboration_network (fun _ => "") fs "/srv/app"
  = mk_network
      (Some "Author collaboration network data processing failed：cannot convert float infinity to integer")
      [] [].
Proof.
  intros rows fs.
  exact (proj1 (collaboration_build_outcomes (fun _ => "") fs "/srv/app" rows
                  eq_refl) eq_refl).
Defined.

Lemma apply_each_combine {R X Y : Type} (f : X -> outcome Y) (g : R -> X)
    (rows : list R) (ys : list Y) :
  apply_each f (map g rows) = Return ys ->
  forall r y, In (r, y) (combine rows ys) <-> In r rows /\ f (g r) = Return y.
Proof.
  revert ys. induction rows as [|r0 rows IH]; intros ys Happ r y.
  - simpl. tauto.
  - simpl in Happ. destruct (f (g r0)) as [y0|e] eqn:Hf0; [|discriminate].
    simpl in Happ.
    destruct (apply_each f (map g rows)) as [ys0|e] eqn:Htail; [|discriminate].
    simpl in Happ. inversion Happ; subst ys. simpl.
    rewrite (IH ys0 eq_refl r y). split.
    + intros [Heq|[Hin Hf]].
      * inversion Heq; subst. tauto.
      * tauto.
    + intros [[->|Hin] Hf].
      * left. congruence.
      * right. tauto.
Qed.

Lemma dropna_affiliation_In (df : list (affiliation_row * option Z))
    (a : affiliation) :
  In a (dropna_affiliation df) <->
  exists r, In (r, Some (author_position_clean a)) df
            /\ raw_paperid r = Some (paperid a)
            /\ raw_authorid r = Some (authorid a).
Proof.
  induction df as [|[r0 p0] df IH]; simpl.
  - split; [contradiction|]. intros [r [[] _]].
  - destruct (raw_paperid r0) as [p|] eqn:Hp, (raw_authorid r0) as [au|] eqn:Ha,
      p0 as [n|]; simpl; rewrite IH; split;
      try (intros [r [Hin Hr]]; exists r; split; [now right|exact Hr]);
      try (intros [r [[Heq|Hin] Hr]];
           [inversion Heq; subst; destruct Hr; congruence
           |exists r; tauto]).
    + intros [<-|[r [Hin Hr]]].
      * exists r0. simpl. rewrite Hp, Ha. tauto.
      * exists r. tauto.
    + intros [r [[Heq|Hin] [Hr1 Hr2]]].
      * left. inversion Heq; subst. destruct a as [pa aa na]. simpl in *.
        congruence.
      * right. exists r. tauto.
Qed.

(** X7. When the cleaning of an affiliation frame succeeds, the cleaned
    frame holds exactly the rows whose paper id and author id are both
    present and not blank and whose position the resolver maps to an
    integer; each cleaned row carries that integer. *)
Theorem clean_affiliations_keeps (fr : spec_float -> string)
    (affils_df : list affiliation_row) (df_clean : list affiliation) :
  clean_affiliations fr affils_df = Return df_clean ->
  forall a, In a df_clean <->
    (exists r, In r affils_df
               /\ raw_paperid r = Some (paperid a)
               /\ raw_authorid r = Some (authorid a)
               /\ clean_author_position fr (author_position r)
                  = Return (Some (author_position_clean a)))
    /\ PyText.strip (paperid a) <> ""
    /\ PyText.strip (authorid a) <> "".
Proof.
  unfold clean_affiliations. intros Hclean a.
  destruct (apply_each (clean_author_position fr)
              (map author_position affils_df)) as [positions|e] eqn:Hpos;
    [|discriminate].
  simpl in Hclean. inversion Hclean; subst df_clean. clear Hclean.
  unfold drop_blank_ids. rewrite filter_In, dropna_affiliation_In.
  rewrite andb_true_iff, !negb_true_iff, !String.eqb_neq.
  split.
  - intros [[r [Hin Hr]] Hblank].
    apply (apply_each_combine _ _ _ _ Hpos) in Hin. split; [|exact Hblank].
    exists r. tauto.
  - intros [[r [Hin [Hp [Ha Hc]]]] Hblank]. split; [|exact Hblank].
    exists r. split; [|tauto].
    apply (apply_each_combine _ _ _ _ Hpos). tauto.
Qed.

Lemma clean_affiliations_keeps_witness :
  Forall (fun a => PyText.strip (paperid a) <> ""
                   /\ PyText.strip (authorid a) <> "")
         sample_affiliation_clean.
Proof.
  apply Forall_forall. intros a Ha.
  exact (proj2 (proj1 (clean_affiliations_keeps (fun _ => "")
                         sample_affiliation_rows sample_affiliation_clean
                         eq_refl a) Ha)).
Defined.

(* ------------------------------------------------------------------ *)
(** ** Author nodes *)

(** Looking an author up in the counts of a [groupby(...).nunique()]
    gives the number of distinct values of the author's rows, 0 when the
    author has no row. *)
Lemma merged_count_nunique {R : Type} (key : R -> string) (value : R -> string)
    (rows : list R) (a : string) :
  merged_count a (groupby_nunique key value rows)
  = Z.of_nat (List.length
      (unique (map value (filter (fun r => eqb (key r) a) rows)))).
Proof.
  unfold merged_count, groupby_nunique.
  pose proof (group_keys_In a (map key rows)) as Hkeys.
  induction (group_keys (map key rows)) as [|k ks IH].
  - simpl. rewrite filter_none; [reflexivity|].
    intros r Hr. apply String.eqb_neq. intros Heq. apply (proj2 Hkeys).
    apply in_map_iff. now exists r.
  - cbn [map find fst].
    destruct (eqb_spec k a) as [->|Hne]; [reflexivity|].
    destruct (in_dec string_dec a ks) as [Hin|Hout].
    + apply IH. split; [intros _|intros _; exact Hin].
      apply (proj1 Hkeys). now right.
    + clear IH.
      assert (Hnone : find (fun kv : string * Z => eqb (fst kv) a)
                (map (fun k0 => (k0, Z.of_nat (List.length (unique
                   (map value (filter (fun r => eqb (key r) k0) rows))))))
                     ks) = None).
      { clear Hkeys. induction ks as [|k' ks IHk]; [reflexivity|].
        cbn [map find fst].
        destruct (eqb_spec k' a) as [->|Hne']; [exfalso; apply Hout; now left|].
        apply IHk. intros Hin. apply Hout. now right. }
      rewrite Hnone. rewrite filter_none; [reflexivity|].
      intros r Hr. apply String.eqb_neq. intros Heq.
      assert (Hin : In a (k :: ks))
        by (apply (proj2 Hkeys), in_map_iff; now exists r).
      destruct Hin as [Heq'|Hin]; [now apply Hne|now apply Hout].
Qed.

Lemma unique_length_incl {K : Type} `{Hashable K} (xs ys : list K) :
  incl xs ys -> (List.length (unique xs) <= List.length (unique ys))%nat.
Proof.
  intros Hincl. apply NoDup_incl_length; [apply unique_NoDup|].
  intros x Hx. apply unique_In, Hincl, unique_In, Hx.
Qed.

Lemma filter_filter_andb {R : Type} (p q : R -> bool) (rows : list R) :
  filter p (filter q rows) = filter (fun r => q r && p r) rows.
Proof.
  induction rows as [|r rows IH]; simpl; [reflexivity|].
  destruct (q r); simpl; [destruct (p r)|]; now rewrite IH.
Qed.

Lemma papers_where_filter (df : list affiliation) (a : string)
    (p q : affiliation -> bool) :
  (forall r, q r = String.eqb (authorid r) a && p r) ->
  Z.of_nat (List.length (unique (map paperid (filter q df))))
  = papers_where df a p.
Proof.
  intros Hq. unfold papers_where. now rewrite (filter_ext _ _ Hq).
Qed.

(** The attributes of a node over the cleaned frame. *)
Lemma collaboration_nodes_In (df : list affiliation) (n : AuthorNode.t) :
  In n (collaboration_nodes df) ->
  In (AuthorNode.id n) (map authorid df)
  /\ AuthorNode.papers_published n
     = papers_where df (AuthorNode.id n) (fun _ => true)
  /\ AuthorNode.first_author_papers n
     = papers_where df (AuthorNode.id n) (fun r => author_position_clean r =? 1)
  /\ AuthorNode.corr_author_papers n
     = papers_where df (AuthorNode.id n) (fun r => author_position_clean r =? -1)
  /\ AuthorNode.h_index n = Z.min (AuthorNode.papers_published n) 15
  /\ AuthorNode.name n = "Author_" +++ AuthorNode.id n.
Proof.
  intros Hn. unfold collaboration_nodes, author_attrs in Hn.
  apply in_map_iff in Hn. destruct Hn as [[[[a pub] fst] cor] [<- Hin]].
  apply filter_In in Hin. destruct Hin as [Hin _].
  apply in_map_iff in Hin. destruct Hin as [[a' pub'] [Heq Hin]].
  inversion Heq; subst a' pub' fst cor. clear Heq.
  cbn [AuthorNode.id AuthorNode.papers_published AuthorNode.first_author_papers
       AuthorNode.corr_author_papers AuthorNode.h_index AuthorNode.name].
  assert (Hkey : In a (map authorid df)).
  { apply (group_keys_In a (map authorid df)).
    rewrite <- (groupby_nunique_keys authorid paperid df).
    apply in_map_iff. now exists (a, pub). }
  assert (Hpub : pub = papers_where df a (fun _ => true)).
  { unfold groupby_nunique in Hin. apply in_map_iff in Hin.
    destruct Hin as [k [Hk _]]. inversion Hk; subst.
    apply papers_where_filter. intros r. now rewrite andb_true_r. }
  split; [exact Hkey|]. split; [exact Hpub|].
  split; [|split; [|split; reflexivity]].
  - rewrite merged_count_nunique, filter_filter_andb.
    apply papers_where_filter. intros r. apply andb_comm.
  - rewrite merged_count_nunique, filter_filter_andb.
    apply papers_where_filter. intros r. apply andb_comm.
Qed.

Lemma papers_where_bounds (df : list affiliation) (a : string)
    (p : affiliation -> bool) :
  0 <= papers_where df a p <= papers_where df a (fun _ => true).
Proof.
  unfold papers_where. split; [lia|]. apply inj_le.
  apply unique_length_incl. intros x Hx. apply in_map_iff in Hx.
  destruct Hx as [r [<- Hr]]. apply in_map. apply filter_In in Hr.
  apply filter_In. destruct Hr as [Hr Hp]. apply andb_true_iff in Hp.
  split; [exact Hr|]. now rewrite (proj1 Hp).
Qed.

Lemma papers_where_positive (df : list affiliation) (a : string) :
  In a (map authorid df) -> 1 <= papers_where df a (fun _ => true).
Proof.
  intros Hkey. unfold papers_where. apply in_map_iff in Hkey.
  destruct Hkey as [r [Hr Hin]].
  assert (Hp : In (paperid r) (unique (map paperid
            (filter (fun r0 => String.eqb (authorid r0) a && true) df)))).
  { apply unique_In, in_map, filter_In. split; [exact Hin|].
    rewrite Hr, String.eqb_refl. reflexivity. }
  destruct (unique _); [contradiction|]. cbn [List.length]. lia.
Qed.

(** X8. On an affiliation table that loads and cleans, each author node
    counts distinct papers of the cleaned frame: [papers_published] over
    all rows of the author, [first_author_papers] over the author's rows
    of position 1 and [corr_author_papers] over the author's rows of
    position -1. Hence [papers_published] is at least 1, the two other
    counts lie between 0 and [papers_published], and [h_index], the
    smaller of [papers_published] and 15, lies between 1 and 15. *)
Theorem author_node_counts (fr : spec_float -> string)
    (fs : filesystem affiliation_row) (dir : string)
    (rows : list affiliation_row) (df_clean : list affiliation) :
  fs (affils_csv_path dir) = Some (Table rows) ->
  clean_affiliations fr (sample_papers rows) = Return df_clean ->
  forall n, In n (nodes (generate_collaboration_network fr fs dir)) ->
    AuthorNode.papers_published n
      = papers_where df_clean (AuthorNode.id n) (fun _ => true)
    /\ AuthorNode.first_author_papers n
       = papers_where df_clean (AuthorNode.id n)
           (fun r => author_position_clean r =? 1)
    /\ AuthorNode.corr_author_papers n
       = papers_where df_clean (AuthorNode.id n)
           (fun r => author_position_clean r =? -1)
    /\ 1 <= AuthorNode.papers_published n
    /\ 0 <= AuthorNode.first_author_papers n <= AuthorNode.papers_published n
    /\ 0 <= AuthorNode.corr_author_papers n <= AuthorNode.papers_published n
    /\ AuthorNode.h_index n = Z.min (AuthorNode.papers_published n) 15
    /\ 1 <= AuthorNode.h_index n <= 15.
Proof.
  intros Hfs Hclean n Hn.
  rewrite (generate_collaboration_network_table _ _ _ _ Hfs), Hclean in Hn.
  assert (Hn' : In n (collaboration_nodes df_clean)).
  { destruct (collaboration_counts (collaboration_pairs df_clean));
      [exact Hn|contradiction]. }
  clear Hn.
  destruct (collaboration_nodes_In df_clean n Hn')
    as [Hkey [Hpub [Hfst [Hcor [Hh _]]]]].
  pose proof (papers_where_positive df_clean _ Hkey) as Hone.
  pose proof (papers_where_bounds df_clean (AuthorNode.id n)
                (fun r => author_position_clean r =? 1)) as H1.
  pose proof (papers_where_bounds df_clean (AuthorNode.id n)
                (fun r => author_position_clean r =? -1)) as H2.
  rewrite <- Hpub in Hone, H1, H2. rewrite <- Hfst in H1. rewrite <- Hcor in H2.
  repeat split; try assumption; lia.
Qed.

Lemma author_node_counts_witness :
  Forall (fun n => 1 <= AuthorNode.h_index n <= 15)
         (nodes (generate_collaboration_network (fun _ => "")
                   sample_affiliation_fs "/srv/app")).
Proof.
  apply Forall_forall. intros n Hn.
  pose proof (author_node_counts (fun _ => "") sample_affiliation_fs "/srv/app"
                sample_affiliation_rows sample_affiliation_clean
                eq_refl eq_refl n Hn) as H.
  tauto.
Defined.

(* ------------------------------------------------------------------ *)
(** ** Output order *)

Section SortedOrder.

Context {A : Type} `{Sortable A}.

Hypothesis leb_false_flip : forall x y : A, leb x y = false -> leb y x = true.
Hypothesis leb_transitive :
  forall x y z : A, leb x y = true -> leb y z = true -> leb x z = true.

Lemma insert_sorted_ordered (x : A) (xs : list A) :
  StronglySorted (fun a b => leb a b = true) xs ->
  StronglySorted (fun a b => leb a b = true) (insert_sorted x xs).
Proof.
  induction 1 as [|y xs Hs IH Hall]; simpl.
  - repeat constructor.
  - destruct (leb x y) eqn:Hxy.
    + constructor; [now constructor|]. constructor; [exact Hxy|].
      eapply Forall_impl; [|exact Hall].
      intros z Hyz. eapply leb_transitive; eassumption.
    + constructor; [exact IH|].
      apply Forall_forall. intros z Hz.
      apply (Permutation_in _ (insert_sorted_perm x xs)) in Hz.
      destruct Hz as [<-|Hz]; [now apply leb_false_flip|].
      rewrite Forall_forall in Hall. now apply Hall.
Qed.

Lemma sorted_ordered (xs : list A) :
  StronglySorted (fun a b => leb a b = true) (sorted xs).
Proof.
  induction xs as [|x xs IH]; simpl; [constructor|].
  now apply insert_sorted_ordered.
Qed.

(** The group keys come out in increasing order, none twice. *)
Lemma group_keys_ordered (keys : list A) :
  StronglySorted (fun a b => leb a b = true /\ a <> b) (group_keys keys).
Proof.
  pose proof (group_keys_NoDup keys) as Hnd.
  unfold group_keys in *.
  pose proof (sorted_ordered (unique keys)) as Hs.
  induction Hs as [|y l Hs IH Hall]; [constructor|].
  inversion Hnd as [|? ? Hy Hl]; subst.
  constructor; [now apply IH|].
  rewrite Forall_forall in *. intros z Hz. split; [now apply Hall|].
  intros ->. contradiction.
Qed.

End SortedOrder.

Lemma StronglySorted_filter {X : Type} (R : X -> X -> Prop) (p : X -> bool)
    (xs : list X) :
  StronglySorted R xs -> StronglySorted R (filter p xs).
Proof.
  induction 1 as [|x xs Hs IH Hall]; simpl; [constructor|].
  destruct (p x); [|exact IH].
  constructor; [exact IH|].
  rewrite Forall_forall in *. intros y Hy. apply filter_In in Hy.
  now apply Hall.
Qed.

Lemma StronglySorted_impl {X : Type} (R S : X -> X -> Prop) (xs : list X) :
  (forall x y, R x y -> S x y) -> StronglySorted R xs -> StronglySorted S xs.
Proof.
  intros HRS. induction 1 as [|x xs Hs IH Hall]; constructor; [exact IH|].
  eapply Forall_impl; [|exact Hall]. intros y. apply HRS.
Qed.

Lemma pair_leb_false_flip (p q : string * string) :
  leb p q = false -> leb q p = true.
Proof.
  destruct p as [a b], q as [c d]. cbn.
  rewrite (String.eqb_sym c a).
  destruct (String.eqb a c); apply TextOrder.leb_false.
Qed.

Lemma pair_leb_transitive (p q r : string * string) :
  leb p q = true -> leb q r = true -> leb p r = true.
Proof.
  destruct p as [a b], q as [c d], r as [e f]. cbn.
  destruct (String.eqb_spec a c) as [->|Hac],
           (String.eqb_spec c e) as [->|Hce].
  - apply TextOrder.leb_trans.
  - auto.
  - destruct (String.eqb_spec a e); [contradiction|]. auto.
  - intros Hle1 Hle2. destruct (String.eqb_spec a e) as [->|Hae].
    + exfalso. apply Hac. now apply String.leb_antisym.
    + eapply TextOrder.leb_trans; eassumption.
Qed.

Lemma pair_leb_strict (p q : string * string) :
  leb p q = true /\ p <> q -> pair_lt p q.
Proof.
  destruct p as [a b], q as [c d]. unfold pair_lt. cbn.
  intros [Hle Hne]. destruct (String.eqb_spec a c) as [->|Hac].
  - right. split; [reflexivity|].
    apply TextOrder.leb_cases in Hle. destruct Hle as [->|Hlt];
      [now contradiction Hne|exact Hlt].
  - left. apply TextOrder.leb_cases in Hle. destruct Hle as [->|Hlt];
      [now contradiction Hac|exact Hlt].
Qed.

Lemma pair_group_keys_sorted (keys : list (string * string)) :
  StronglySorted pair_lt (group_keys keys).
Proof.
  apply (StronglySorted_impl _ _ _ pair_leb_strict).
  apply group_keys_ordered.
  - exact pair_leb_false_flip.
  - exact pair_leb_transitive.
Qed.

Lemma text_group_keys_sorted (keys : list string) :
  StronglySorted (fun a b => String.ltb a b = true) (group_keys keys).
Proof.
  apply (StronglySorted_impl (fun a b => leb a b = true /\ a <> b)).
  - intros a b [Hle Hne]. apply TextOrder.leb_cases in Hle.
    destruct Hle as [->|Hlt]; [now contradiction Hne|exact Hlt].
  - apply group_keys_ordered.
    + exact TextOrder.leb_false.
    + exact TextOrder.leb_trans.
Qed.

(** X9. Every builder lists its edges in increasing order of the pair
    (source, target), compared as texts, source first; no pair comes
    twice. *)
Theorem edges_in_key_order (fr : spec_float -> string)
    (citations : filesystem citation_row)
    (affiliations : filesystem affiliation_row) (dir : string) :
  StronglySorted pair_lt
    (map (fun l => (CitationLink.source l, CitationLink.target l))
         (links (generate_citation_network citations dir)))
  /\ StronglySorted pair_lt
       (map (fun l => (CitationLink.source l, CitationLink.target l))
            (links (generate_enhanced_citation_network citations dir)))
  /\ StronglySorted pair_lt
       (map (fun l => (CollabLink.source l, CollabLink.target l))
            (links (generate_collaboration_network fr affiliations dir))).
Proof.
  assert (Hcit : forall df,
            StronglySorted pair_lt
              (map (fun l => (CitationLink.source l, CitationLink.target l))
                   (map (link_of_group df) (link_groups df)))).
  { intros df. rewrite map_map.
    replace (map _ (link_groups df))
      with (group_keys (map (fun r => (cited_paperid r, citing_paperid r)) df)).
    - apply pair_group_keys_sorted.
    - unfold link_groups. rewrite <- groupby_size_keys.
      apply map_ext. now intros [[cited citing] n]. }
  split; [|split].
  - destruct (citations (citation_csv_path dir)) as [[e|rows]|] eqn:Hfs.
    + unfold generate_citation_network, os_path_exists, pd_read_csv.
      rewrite Hfs. constructor.
    + rewrite (generate_citation_network_table _ _ _ Hfs). apply Hcit.
    + unfold generate_citation_network, os_path_exists.
      rewrite Hfs. constructor.
  - destruct (citations (citation_csv_path dir)) as [[e|rows]|] eqn:Hfs.
    + unfold generate_enhanced_citation_network, os_path_exists, pd_read_csv.
      rewrite Hfs. constructor.
    + rewrite (generate_enhanced_citation_network_table _ _ _ Hfs). apply Hcit.
    + unfold generate_enhanced_citation_network, os_path_exists.
      rewrite Hfs. constructor.
  - destruct (affiliations (affils_csv_path dir)) as [[e|rows]|] eqn:Hfs.
    + unfold generate_collaboration_network, os_path_exists, pd_read_csv.
      rewrite Hfs. constructor.
    + rewrite (generate_collaboration_network_table _ _ _ _ Hfs).
      destruct (clean_affiliations fr (sample_papers rows)) as [df|e];
        [|constructor].
      unfold collaboration_counts.
      destruct (collaboration_pairs df) as [|p ps]; [constructor|].
      cbn [links success]. rewrite collaboration_links_keys.
      apply StronglySorted_filter, pair_group_keys_sorted.
    + unfold generate_collaboration_network, os_path_exists.
      rewrite Hfs. constructor.
Qed.

Lemma clean_affiliations_nonblank (fr : spec_float -> string)
    (affils_df : list affiliation_row) (df : list affiliation) :
  clean_affiliations fr affils_df = Return df ->
  forall r, In r df ->
    PyText.strip (paperid r) <> "" /\ PyText.strip (authorid r) <> "".
Proof.
  unfold clean_affiliations. intros Hclean r Hr.
  destruct (apply_each _ _) as [positions|e]; [|discriminate].
  simpl in Hclean. inversion Hclean; subst df.
  unfold drop_blank_ids in Hr. apply filter_In in Hr. destruct Hr as [_ Hr].
  apply andb_true_iff in Hr. rewrite !negb_true_iff, !String.eqb_neq in Hr.
  exact Hr.
Qed.

(** X10. When the collaboration build succeeds, the nodes are the
    authors of the cleaned frame, one node each, co-author or not, in
    increasing order of the author id, and no node has a blank id. *)
Theorem author_nodes_cover_authors (fr : spec_float -> string)
    (fs : filesystem affiliation_row) (dir : string)
    (rows : list affiliation_row) (df_clean : list affiliation) :
  fs (affils_csv_path dir) = Some (Table rows) ->
  clean_affiliations fr (sample_papers rows) = Return df_clean ->
  collaboration_pairs df_clean <> [] ->
  let ids := map AuthorNode.id
               (nodes (generate_collaboration_network fr fs dir)) in
  StronglySorted (fun a b => String.ltb a b = true) ids
  /\ (forall a, In a ids <-> exists r, In r df_clean /\ authorid r = a)
  /\ (forall a, In a ids -> PyText.strip a <> "").
Proof.
  intros Hfs Hclean Hpairs ids. subst ids.
  rewrite (generate_collaboration_network_table _ _ _ _ Hfs), Hclean.
  unfold collaboration_counts.
  destruct (collaboration_pairs df_clean) as [|p ps]; [contradiction|].
  cbn [nodes success]. rewrite collaboration_nodes_ids.
  assert (Hin : forall a, In a (group_keys (map authorid df_clean))
                          <-> exists r, In r df_clean /\ authorid r = a).
  { intros a. rewrite group_keys_In, in_map_iff.
    split; intros [r Hr]; exists r; tauto. }
  split; [apply text_group_keys_sorted|]. split; [exact Hin|].
  intros a Ha. apply Hin in Ha. destruct Ha as [r [Hr <-]].
  exact (proj2 (clean_affiliations_nonblank fr _ _ Hclean r Hr)).
Qed.

Lemma author_nodes_cover_authors_witness :
  map AuthorNode.id
      (nodes (generate_collaboration_network (fun _ => "")
                sample_affiliation_fs "/srv/app"))
  = ["A"; "B"; "C"]
  /\ StronglySorted (fun a b => String.ltb a b = true)
       (map AuthorNode.id
          (nodes (generate_collaboration_network (fun _ => "")
                    sample_affiliation_fs "/srv/app"))).
Proof.
  split; [reflexivity|].
  refine (proj1 (author_nodes_cover_authors (fun _ => "") sample_affiliation_fs
                   "/srv/app" sample_affiliation_rows sample_affiliation_clean
                   eq_refl eq_refl _)).
  vm_compute. discriminate.
Defined.

(* ------------------------------------------------------------------ *)
(** ** The sampling step below the cap *)

(** X11. The sampling step keeps every row of a table with at most 1000
    distinct paper ids, however many rows it has; and whatever the
    table, it keeps rows in their order and adds none. *)
Theorem sample_papers_below_cap (rows : list affiliation_row) :
  ((List.length (unique (map raw_paperid rows)) <= 1000)%nat ->
     sample_papers rows = rows)
  /\ (exists keep, sample_papers rows = filter keep rows).
Proof.
  split.
  - intros Hfew. unfold sample_papers.
    destruct (sample_size <? List.length rows)%nat; [|reflexivity].
    rewrite firstn_all2 by exact Hfew.
    apply filter_all. intros r Hr. apply isin_In, unique_In.
    now apply in_map.
  - unfold sample_papers.
    destruct (sample_size <? List.length rows)%nat.
    + eexists. reflexivity.
    + exists (fun _ => true). symmetry. now apply filter_all.
Qed.

Lemma sample_papers_below_cap_witness :
  (1000 < List.length few_paper_rows)%nat
  /\ sample_papers few_paper_rows = few_paper_rows.
Proof.
  split.
  - apply (proj1 (Nat.ltb_lt 1000 (List.length few_paper_rows))).
    vm_compute. reflexivity.
  - apply (proj1 (sample_papers_below_cap few_paper_rows)).
    apply (proj1 (Nat.leb_le
             (List.length (unique (map raw_paperid few_paper_rows))) 1000)).
    vm_compute. reflexivity.
Defined.

(* ------------------------------------------------------------------ *)
(** ** Collaboration edge values *)

Lemma combinations2_length {X : Type} (xs : list X) :
  2 * Z.of_nat (List.length (combinations2 xs))
  = Z.of_nat (List.length xs) * (Z.of_nat (List.length xs) - 1).
Proof.
  induction xs as [|x xs IH]; [reflexivity|].
  cbn [combinations2 List.length]. rewrite length_app, length_map. nia.
Qed.

Lemma flat_map_length_total {X Y : Type} (f : X -> list Y) (xs : list X) :
  Z.of_nat (List.length (flat_map f xs))
  = total (map (fun x => Z.of_nat (List.length (f x))) xs).
Proof.
  induction xs as [|x xs IH]; [reflexivity|].
  cbn [flat_map map]. rewrite length_app. unfold total in *.
  cbn [fold_right]. rewrite <- IH. lia.
Qed.

Lemma total_scale (c : Z) (xs : list Z) :
  c * total xs = total (map (Z.mul c) xs).
Proof.
  unfold total. induction xs as [|x xs IH]; simpl; [lia|].
  rewrite <- IH. lia.
Qed.

Lemma collaboration_links_all (df : list affiliation) :
  map CollabLink.value
      (collaboration_links (collaboration_nodes df) (groupby_size (pair_keys df)))
  = map (fun k => Z.of_nat (occurrences k (pair_keys df)))
        (group_keys (pair_keys df)).
Proof.
  unfold collaboration_links, groupby_size.
  assert (Hguard : forall k, In k (group_keys (pair_keys df)) ->
            isin (fst k) (map AuthorNode.id (collaboration_nodes df))
            && isin (snd k) (map AuthorNode.id (collaboration_nodes df)) = true).
  { intros [a b] Hk. rewrite group_keys_In in Hk.
    destruct (pair_keys_authors df a b Hk) as [Ha Hb].
    rewrite collaboration_nodes_ids. cbn [fst snd].
    apply andb_true_iff. split; apply isin_In, group_keys_In; assumption. }
  induction (group_keys (pair_keys df)) as [|[a b] ks IH]; [reflexivity|].
  cbn [map flat_map]. rewrite map_app.
  rewrite IH by (intros; apply Hguard; now right).
  pose proof (Hguard (a, b) (or_introl eq_refl)) as Hab. cbn [fst snd] in Hab.
  rewrite Hab. reflexivity.
Qed.

(** X12. When the collaboration build succeeds, the [value]s of the
    edges add up to the number of pair items, every edge has a value of
    at least 1, and a paper with k cleaned rows contributes k(k-1)/2 pair
    items: all pairs of its rows, repeated authors included. *)
Theorem collaboration_values_add_up (fr : spec_float -> string)
    (fs : filesystem affiliation_row) (dir : string)
    (rows : list affiliation_row) (df_clean : list affiliation) :
  fs (affils_csv_path dir) = Some (Table rows) ->
  clean_affiliations fr (sample_papers rows) = Return df_clean ->
  collaboration_pairs df_clean <> [] ->
  let result := generate_collaboration_network fr fs dir in
  total (map CollabLink.value (links result))
    = Z.of_nat (List.length (collaboration_pairs df_clean))
  /\ 2 * Z.of_nat (List.length (collaboration_pairs df_clean))
     = total (map (fun row : string * list string =>
                     Z.of_nat (List.length (snd row))
                     * (Z.of_nat (List.length (snd row)) - 1))
                  (paper_authors df_clean))
  /\ (forall l, In l (links result) ->
        1 <= CollabLink.value l
        /\ CollabLink.co_authored_papers l = CollabLink.value l).
Proof.
  intros Hfs Hclean Hpairs result. subst result.
  rewrite (generate_collaboration_network_table _ _ _ _ Hfs), Hclean.
  assert (Hcounts : collaboration_counts (collaboration_pairs df_clean)
                    = Return (groupby_size (pair_keys df_clean))).
  { unfold collaboration_counts, pair_keys.
    destruct (collaboration_pairs df_clean); [contradiction|reflexivity]. }
  rewrite Hcounts. cbn [links success]. split; [|split].
  - rewrite collaboration_links_all, total_occurrences.
    + unfold pair_keys. now rewrite length_map.
    + apply group_keys_NoDup.
    + intros k Hk. now apply group_keys_In.
  - unfold collaboration_pairs.
    rewrite flat_map_length_total, total_scale, map_map.
    f_equal. apply map_ext. intros [paper authors]. cbn [snd].
    rewrite <- (Permutation_length (sorted_perm authors)).
    rewrite <- combinations2_length.
    destruct (2 <=? List.length (sorted authors))%nat eqn:Hlen.
    + now rewrite length_map.
    + apply Nat.leb_gt in Hlen. now rewrite combinations2_short.
  - intros l Hl. apply collaboration_links_values in Hl.
    destruct Hl as [Hkey [Hval Hco]]. split; [|exact Hco].
    pose proof (occurrences_present _ _ Hkey). lia.
Qed.

Lemma collaboration_values_add_up_witness :
  total (map CollabLink.value
           (links (generate_collaboration_network (fun _ => "")
                     sample_affiliation_fs "/srv/app")))
  = 4.
Proof.
  refine (proj1 (collaboration_values_add_up (fun _ => "") sample_affiliation_fs
                   "/srv/app" sample_affiliation_rows sample_affiliation_clean
                   eq_refl eq_refl _)).
  vm_compute. discriminate.
Defined.

(** The edges of the sample table, which repeats no author on a paper. *)
Lemma collaboration_edges_without_repeats_witness :
  Forall (fun l =>
            String.ltb (CollabLink.source l) (CollabLink.target l) = true
            /\ CollabLink.value l
               = shared_papers sample_affiliation_clean
                   (CollabLink.source l) (CollabLink.target l))
         (links (generate_collaboration_network (fun _ => "")
                   sample_affiliation_fs "/srv/app")).
Proof.
  apply Forall_forall. intros l Hl.
  assert (Hnd : NoDup (map (fun r => (paperid r, authorid r))
                           sample_affiliation_clean)).
  { repeat constructor; simpl; intuition discriminate. }
  pose proof (proj1 (collaboration_edges_without_repeats (fun _ => "")
                       sample_affiliation_fs "/srv/app" sample_affiliation_rows
                       sample_affiliation_clean eq_refl eq_refl Hnd) l Hl) as H.
  tauto.
Defined.

(* ------------------------------------------------------------------ *)
(** ** The normaliser, applied twice and applied to the builders *)

(** X14. A second pass of [convert_numpy_types] changes nothing, tuples
    included, on every value whose arrays unpack into plain lists (arrays
    of an integer, boolean, text or float dtype up to 64 bits, and
    [object] arrays of plain values). An [object] array that stores a
    NumPy scalar is the exception: the first pass unpacks it, the second
    converts the scalar. Every pass keeps the keys of a dict, in their
    order, and the number of items of a list. *)
Theorem convert_numpy_types_idempotent :
  (forall v, arrays_unpack_plain v = true ->
     convert_numpy_types (convert_numpy_types v) = convert_numpy_types v)
  /\ (let v := NpObjectArray (NdAxis [NdLeaf (NpInteger 7)]) in
      convert_numpy_types v = PList [NpInteger 7]
      /\ convert_numpy_types (convert_numpy_types v) = PList [PInt 7])
  /\ (forall entries, exists entries',
        convert_numpy_types (PDict entries) = PDict entries'
        /\ map fst entries' = map fst entries)
  /\ (forall items, exists items',
        convert_numpy_types (PList items) = PList items'
        /\ List.length items' = List.length items).
Proof.
  split; [|split; [|split]].
  - induction v as [ |b|z|f|s|items IH|items|items|entries IH|z|f|x|b|a|a]
      using pyval_nested_ind; intros Hv; try reflexivity.
    + cbn [convert_numpy_types]. f_equal. rewrite map_map.
      apply map_ext_in. intros x Hx. rewrite Forall_forall in IH.
      apply IH; [exact Hx|].
      cbn [arrays_unpack_plain] in Hv. rewrite forallb_forall in Hv. auto.
    + cbn [convert_numpy_types]. f_equal. rewrite map_map.
      apply map_ext_in. intros [k x] Hx. rewrite Forall_forall in IH.
      f_equal. apply (IH _ Hx).
      cbn [arrays_unpack_plain] in Hv. rewrite forallb_forall in Hv.
      exact (Hv _ Hx).
    + cbn [convert_numpy_types]. now apply convert_numpy_types_plain.
    + cbn [convert_numpy_types]. now apply convert_numpy_types_plain.
  - split; reflexivity.
  - intros entries. eexists. split; [reflexivity|].
    rewrite map_map. apply map_ext. now intros [k x].
  - intros items. eexists. split; [reflexivity|]. apply length_map.
Qed.

Lemma convert_numpy_types_idempotent_witness :
  let v := PDict [(PStr "a", PList [NpInteger 1; PTuple [NpFloating PyFloat.lit_2_0]]);
                  (PStr "b", NpArray (IntArray (NdAxis [NdLeaf 2; NdLeaf 3])));
                  (PStr "c", NpObjectArray (NdAxis [NdLeaf (PStr "x"); NdLeaf PNone]))] in
  arrays_unpack_plain v = true
  /\ convert_numpy_types v
     = PDict [(PStr "a", PList [PInt 1; PTuple [NpFloating PyFloat.lit_2_0]]);
              (PStr "b", PList [PInt 2; PInt 3]);
              (PStr "c", PList [PStr "x"; PNone])]
  /\ convert_numpy_types (convert_numpy_types v) = convert_numpy_types v.
Proof.
  intro v. split; [reflexivity|]. split; [reflexivity|].
  exact (proj1 convert_numpy_types_idempotent v eq_refl).
Defined.

(** X15. The closing [convert_numpy_types] pass of each builder returns
    the dict it is given: every number in it is already a plain [int] or
    [float], on success and on failure. *)
Theorem builder_responses_unchanged (fr : spec_float -> string)
    (citations : filesystem citation_row)
    (affiliations : filesystem affiliation_row) (dir : string) :
  citation_response citations dir
    = network_to_py paper_node_to_py citation_link_to_py
        (generate_citation_network citations dir)
  /\ enhanced_citation_response citations dir
     = network_to_py enhanced_node_to_py citation_link_to_py
         (generate_enhanced_citation_network citations dir)
  /\ collaboration_response fr affiliations dir
     = network_to_py author_node_to_py collab_link_to_py
         (generate_collaboration_network fr affiliations dir).
Proof.
  split; [apply citation_response_plain|].
  split; [apply enhanced_citation_response_plain|].
  apply collaboration_response_plain.
Qed.

(* ------------------------------------------------------------------ *)
(** ** The resolver on texts *)

Module TextFacts.

Ltac each_char c :=
  destruct c as [b0 b1 b2 b3 b4 b5 b6 b7];
  destruct b0, b1, b2, b3, b4, b5, b6, b7.

Lemma isspace_lower_char (c : ascii) :
  PyText.isspace (PyText.lower_char c) = PyText.isspace c.
Proof. each_char c; reflexivity. Qed.

Lemma int_space_lower_char (c : ascii) :
  PyText.int_space (PyText.lower_char c) = PyText.int_space c.
Proof. each_char c; reflexivity. Qed.

Lemma int_space_isspace (c : ascii) :
  PyText.int_space c = true -> PyText.isspace c = true.
Proof. each_char c; intros Hc; try reflexivity; discriminate Hc. Qed.

Lemma digit_value_lower_char (c : ascii) :
  PyText.digit_value (PyText.lower_char c) = PyText.digit_value c.
Proof. each_char c; reflexivity. Qed.

Lemma underscore_lower_char (c : ascii) :
  (PyText.code (PyText.lower_char c) =? 95)%N = (PyText.code c =? 95)%N.
Proof. each_char c; reflexivity. Qed.

Lemma sign_lower_char (c sign : ascii) :
  sign = "+"%char \/ sign = "-"%char ->
  Ascii.eqb (PyText.lower_char c) sign = Ascii.eqb c sign.
Proof. intros [->| ->]; each_char c; reflexivity. Qed.

Lemma lower_char_idem (c : ascii) :
  PyText.lower_char (PyText.lower_char c) = PyText.lower_char c.
Proof. each_char c; reflexivity. Qed.

Lemma lower_idem (s : string) : PyText.lower (PyText.lower s) = PyText.lower s.
Proof.
  induction s as [|c s IH]; simpl; [reflexivity|].
  now rewrite lower_char_idem, IH.
Qed.

Lemma rstrip_by_head (sp : ascii -> bool) (c : ascii) (s : string) :
  PyText.rstrip_by sp (String c s) = EmptyString
  \/ exists r, PyText.rstrip_by sp (String c s) = String c r.
Proof.
  simpl. destruct (PyText.rstrip_by sp s) as [|d r].
  - destruct (sp c); [now left|right; now exists EmptyString].
  - right. now exists (String d r).
Qed.

(** Stripping on the left and stripping on the right commute. *)
Lemma lstrip_rstrip_comm (sp sp' : ascii -> bool) (s : string) :
  PyText.lstrip_by sp (PyText.rstrip_by sp' s)
  = PyText.rstrip_by sp' (PyText.lstrip_by sp s).
Proof.
  induction s as [|c s IH]; [reflexivity|].
  cbn [PyText.lstrip_by]. destruct (sp c) eqn:Hc.
  - rewrite <- IH. cbn [PyText.rstrip_by].
    destruct (PyText.rstrip_by sp' s) as [|d r].
    + destruct (sp' c); cbn [PyText.lstrip_by]; [reflexivity|].
      now rewrite Hc.
    + cbn [PyText.lstrip_by]. now rewrite Hc.
  - destruct (rstrip_by_head sp' c s) as [Hr|[r Hr]]; rewrite Hr.
    + reflexivity.
    + cbn [PyText.lstrip_by]. now rewrite Hc.
Qed.

Section Sub.

Variables sp sp' : ascii -> bool.
Hypothesis sp_sub : forall c, sp c = true -> sp' c = true.

Lemma lstrip_by_sub (s : string) :
  PyText.lstrip_by sp' (PyText.lstrip_by sp s) = PyText.lstrip_by sp' s.
Proof.
  induction s as [|c s IH]; [reflexivity|].
  cbn [PyText.lstrip_by]. destruct (sp c) eqn:Hc; [|reflexivity].
  now rewrite IH, (sp_sub c Hc).
Qed.

Lemma rstrip_by_sub (s : string) :
  PyText.rstrip_by sp' (PyText.rstrip_by sp s) = PyText.rstrip_by sp' s.
Proof.
  induction s as [|c s IH]; [reflexivity|].
  cbn [PyText.rstrip_by].
  destruct (PyText.rstrip_by sp s) as [|d r] eqn:Hr.
  - cbn [PyText.rstrip_by] in IH. rewrite <- IH.
    destruct (sp c) eqn:Hc; cbn [PyText.rstrip_by];
      [now rewrite (sp_sub c Hc)|reflexivity].
  - rewrite <- IH. remember (String d r) as t. reflexivity.
Qed.

(** Stripping a class of characters and then a larger class is stripping
    the larger class. *)
Lemma strip_by_sub (s : string) :
  PyText.strip_by sp' (PyText.strip_by sp s) = PyText.strip_by sp' s.
Proof.
  unfold PyText.strip_by.
  now rewrite lstrip_rstrip_comm, rstrip_by_sub, lstrip_by_sub.
Qed.

End Sub.

Lemma strip_by_idem (sp : ascii -> bool) (s : string) :
  PyText.strip_by sp (PyText.strip_by sp s) = PyText.strip_by sp s.
Proof. apply strip_by_sub. auto. Qed.

Section Lower.

Variable sp : ascii -> bool.
Hypothesis sp_lower : forall c, sp (PyText.lower_char c) = sp c.

Lemma lstrip_by_lower (s : string) :
  PyText.lstrip_by sp (PyText.lower s) = PyText.lower (PyText.lstrip_by sp s).
Proof.
  induction s as [|c s IH]; simpl; [reflexivity|].
  rewrite sp_lower. destruct (sp c); [exact IH|reflexivity].
Qed.

Lemma rstrip_by_lower (s : string) :
  PyText.rstrip_by sp (PyText.lower s) = PyText.lower (PyText.rstrip_by sp s).
Proof.
  induction s as [|c s IH]; simpl; [reflexivity|].
  rewrite IH, sp_lower.
  destruct (PyText.rstrip_by sp s); simpl; [|reflexivity].
  destruct (sp c); reflexivity.
Qed.

Lemma strip_by_lower (s : string) :
  PyText.strip_by sp (PyText.lower s) = PyText.lower (PyText.strip_by sp s).
Proof. unfold PyText.strip_by. now rewrite lstrip_by_lower, rstrip_by_lower. Qed.

End Lower.

Lemma digits_lower (s : string) (acc : Z) (after_digit : bool) :
  PyText.digits (PyText.lower s) acc after_digit
  = PyText.digits s acc after_digit.
Proof.
  revert acc after_digit. induction s as [|c s IH]; intros acc after_digit;
    simpl; [reflexivity|].
  rewrite digit_value_lower_char, underscore_lower_char.
  destruct (PyText.digit_value c); [apply IH|].
  destruct ((PyText.code c =? 95)%N && after_digit); [apply IH|reflexivity].
Qed.

Lemma digit_count_lower (s : string) :
  PyText.digit_count (PyText.lower s) = PyText.digit_count s.
Proof.
  induction s as [|c s IH]; simpl; [reflexivity|].
  rewrite digit_value_lower_char, IH. reflexivity.
Qed.

Lemma capped_digits_lower (s : string) :
  PyText.capped_digits (PyText.lower s) = PyText.capped_digits s.
Proof.
  unfold PyText.capped_digits. now rewrite digits_lower, digit_count_lower.
Qed.

(** [int(s)] read off the stripped text: sign first, then digits. *)
Lemma int_literal_signed (s : string) :
  PyText.int_literal s =
  match PyText.strip_by PyText.int_space s with
  | EmptyString => None
  | String c r =>
      if Ascii.eqb c "+" then PyText.capped_digits r
      else if Ascii.eqb c "-" then option_map Z.opp (PyText.capped_digits r)
      else PyText.capped_digits (String c r)
  end.
Proof.
  unfold PyText.int_literal.
  destruct (PyText.strip_by PyText.int_space s) as [|c r]; [reflexivity|].
  each_char c; reflexivity.
Qed.

Lemma int_literal_lower (s : string) :
  PyText.int_literal (PyText.lower s) = PyText.int_literal s.
Proof.
  rewrite !int_literal_signed, (strip_by_lower _ int_space_lower_char).
  destruct (PyText.strip_by PyText.int_space s) as [|c r]; [reflexivity|].
  cbn [PyText.lower].
  rewrite !sign_lower_char by tauto.
  change (String (PyText.lower_char c) (PyText.lower r))
    with (PyText.lower (String c r)).
  now rewrite !capped_digits_lower.
Qed.

Lemma int_literal_strip (s : string) :
  PyText.int_literal (PyText.strip_by PyText.int_space s) = PyText.int_literal s.
Proof. unfold PyText.int_literal. now rewrite strip_by_idem. Qed.

Lemma strip_int_strip (s : string) :
  PyText.strip (PyText.strip_by PyText.int_space s) = PyText.strip s.
Proof. unfold PyText.strip. apply strip_by_sub, int_space_isspace. Qed.

Lemma strip_lower (s : string) :
  PyText.strip (PyText.lower s) = PyText.lower (PyText.strip s).
Proof. unfold PyText.strip. apply strip_by_lower, isspace_lower_char. Qed.

End TextFacts.

Lemma clean_author_position_text (fr : spec_float -> string) (s : string) :
  clean_author_position fr (CStr s) =
  Return
    match PyText.int_literal s with
    | Some z => Some z
    | None =>
        let w := PyText.lower (PyText.strip s) in
        if PyText.mem w ["middle"; "mid"] then Some 2
        else if PyText.mem w ["last"; "corresponding"; "corr"] then Some (-1)
        else None
    end.
Proof.
  unfold clean_author_position. cbn [pd_isna py_int py_str].
  destruct (PyText.int_literal s); [reflexivity|].
  cbn [catches existsb exn_kind exn_class_eqb orb].
  destruct (PyText.mem _ ["middle"; "mid"]); [reflexivity|].
  destruct (PyText.mem _ ["last"; "corresponding"; "corr"]); reflexivity.
Qed.

(** X16. On a text cell the resolver never raises. Its answer does not
    depend on the case of the letters, nor on white space of the kind
    [int] skips (blank, tab, line feed, vertical tab, form feed, carriage
    return and the two spaces above 127) around the text. It does depend
    on a separator 28-31 around an integer, which [str.strip] removes and
    [int] does not: such a text resolves to [None], its [strip()] to the
    integer. *)
Theorem clean_author_position_text_insensitive (fr : spec_float -> string)
    (s : string) :
  (exists p, clean_author_position fr (CStr s) = Return p)
  /\ clean_author_position fr (CStr (PyText.lower s))
     = clean_author_position fr (CStr s)
  /\ clean_author_position fr (CStr (PyText.strip_by PyText.int_space s))
     = clean_author_position fr (CStr s)
  /\ (let t := String (ascii_of_nat 28) "1" in
      clean_author_position fr (CStr t) = Return None
      /\ clean_author_position fr (CStr (PyText.strip t)) = Return (Some 1)).
Proof.
  rewrite !clean_author_position_text. split; [eexists; reflexivity|].
  split; [|split].
  - now rewrite TextFacts.int_literal_lower, TextFacts.strip_lower,
      TextFacts.lower_idem.
  - now rewrite TextFacts.int_literal_strip, TextFacts.strip_int_strip.
  - split; reflexivity.
Qed.

(** Role words and integers in other spellings. *)
Example clean_author_position_spellings (fr : spec_float -> string) :
  map (clean_author_position fr)
      [CStr "  CORR"; CStr "Last "; CStr " +7 "; CStr "MIDDLE"; CStr "1 000"]
  = map Return [Some (-1); Some (-1); Some 7; Some 2; None].
Proof. reflexivity. Qed.

(* ------------------------------------------------------------------ *)
(** ** Order of the citation nodes *)

Lemma unique_app {K : Type} `{Hashable K} (xs ys : list K) :
  unique (xs ++ ys)
  = unique xs ++ filter (fun y => negb (isin y xs)) (unique ys).
Proof.
  induction xs as [|x xs IH]; simpl.
  - symmetry. now apply filter_all.
  - f_equal. rewrite IH, filter_app. f_equal.
    rewrite filter_filter_andb. apply filter_ext. intros y.
    unfold isin. cbn [existsb]. rewrite (eqb_symm y x).
    destruct (eqb x y), (existsb (eqb y) xs); reflexivity.
Qed.

(** X17. On every citation table that loads, the nodes come in
    first-seen order: first the papers that cite, in the order of their
    first retained record as citing paper, then the papers that are only
    cited, in the order of their first retained record as cited paper. *)
Theorem citation_nodes_first_seen_order (fs : filesystem citation_row)
    (dir : string) (rows : list citation_row) :
  fs (citation_csv_path dir) = Some (Table rows) ->
  let retained := clean_citations rows in
  map PaperNode.id (nodes (generate_citation_network fs dir))
  = unique (map citing_paperid retained)
    ++ filter (fun x => negb (isin x (map citing_paperid retained)))
              (unique (map cited_paperid retained)).
Proof.
  intros Hfs retained.
  rewrite (generate_citation_network_table _ _ _ Hfs). cbn [nodes success].
  rewrite citation_nodes_ids. apply unique_app.
Qed.

Lemma citation_nodes_first_seen_order_witness :
  map PaperNode.id
      (nodes (generate_citation_network sample_citation_fs "/srv/app"))
  = unique ["P1"; "P1"] ++ ["P2"].
Proof.
  exact (citation_nodes_first_seen_order sample_citation_fs "/srv/app"
           sample_citation_rows eq_refl).
Defined.

(* ------------------------------------------------------------------ *)
(** ** Columns the collaboration builder reads *)

Lemma map_filter_same {R K : Type} (g : R -> K) (p : K -> bool)
    (xs ys : list R) :
  map g xs = map g ys ->
  map g (filter (fun r => p (g r)) xs) = map g (filter (fun r => p (g r)) ys).
Proof.
  revert ys. induction xs as [|x xs IH]; intros [|y ys] Heq;
    try discriminate; [reflexivity|].
  simpl in Heq. inversion Heq as [[Hxy Htail]]. simpl. rewrite Hxy.
  destruct (p (g y)); simpl; [rewrite Hxy; f_equal|]; now apply IH.
Qed.

Lemma dropna_combine_same (xs ys : list affiliation_row)
    (positions : list (option Z)) :
  map (fun r => (raw_paperid r, raw_authorid r)) xs
  = map (fun r => (raw_paperid r, raw_authorid r)) ys ->
  dropna_affiliation (combine xs positions)
  = dropna_affiliation (combine ys positions).
Proof.
  revert ys positions. induction xs as [|x xs IH]; intros [|y ys] positions Heq;
    try discriminate; [reflexivity|].
  simpl in Heq. inversion Heq as [[Hp Ha Htail]].
  destruct positions as [|p positions]; [reflexivity|].
  simpl. rewrite Hp, Ha, (IH ys positions Htail). reflexivity.
Qed.

(** X18. The collaboration builder reads three columns only: two tables
    that agree row by row on [paperid], [authorid] and [author_position]
    give the same result, whatever their [institutionid] cells. *)
Theorem collaboration_ignores_institution (fr : spec_float -> string)
    (fs fs' : filesystem affiliation_row) (dir : string)
    (rows rows' : list affiliation_row) :
  fs (affils_csv_path dir) = Some (Table rows) ->
  fs' (affils_csv_path dir) = Some (Table rows') ->
  map (fun r => (raw_paperid r, raw_authorid r, author_position r)) rows
  = map (fun r => (raw_paperid r, raw_authorid r, author_position r)) rows' ->
  generate_collaboration_network fr fs dir
  = generate_collaboration_network fr fs' dir.
Proof.
  intros Hfs Hfs' Hsame.
  rewrite (generate_collaboration_network_table _ _ _ _ Hfs).
  rewrite (generate_collaboration_network_table _ _ _ _ Hfs').
  set (core := fun r => (raw_paperid r, raw_authorid r, author_position r))
    in *.
  assert (Hproj : forall xs ys, map core xs = map core ys ->
            map raw_paperid xs = map raw_paperid ys
            /\ map author_position xs = map author_position ys
            /\ map (fun r => (raw_paperid r, raw_authorid r)) xs
               = map (fun r => (raw_paperid r, raw_authorid r)) ys).
  { intros xs ys Heq.
    assert (H1 := f_equal (map (fun c : _ * _ * cell => fst (fst c))) Heq).
    assert (H2 := f_equal (map (fun c : _ * _ * cell => snd c)) Heq).
    assert (H3 := f_equal (map (fun c : _ * _ * cell => fst c)) Heq).
    rewrite !map_map in H1, H2, H3. auto. }
  assert (Hsampled : map core (sample_papers rows)
                     = map core (sample_papers rows')).
  { unfold sample_papers.
    destruct (Hproj _ _ Hsame) as [Hids _].
    assert (Hlen : List.length rows = List.length rows')
      by (rewrite <- (length_map core rows), Hsame; apply length_map).
    rewrite Hlen, Hids.
    destruct (sample_size <? List.length rows')%nat; [|exact Hsame].
    apply (map_filter_same core
             (fun c => isin (fst (fst c))
                         (firstn sample_size (unique (map raw_paperid rows'))))).
    exact Hsame. }
  assert (Hclean : clean_affiliations fr (sample_papers rows)
                   = clean_affiliations fr (sample_papers rows')).
  { unfold clean_affiliations.
    destruct (Hproj _ _ Hsampled) as [_ [Hpos Hkeys]].
    rewrite Hpos.
    destruct (apply_each _ _) as [positions|e]; [|reflexivity].
    cbn [bind]. now rewrite (dropna_combine_same _ _ positions Hkeys). }
  now rewrite Hclean.
Qed.

Lemma collaboration_ignores_institution_witness :
  let other := map (fun r => mk_affiliation_row (raw_paperid r) (raw_authorid r)
                               None (author_position r))
                   sample_affiliation_rows in
  generate_collaboration_network (fun _ => "") sample_affiliation_fs "/srv/app"
  = generate_collaboration_network (fun _ => "")
      (fun _ => Some (Table other)) "/srv/app".
Proof.
  intro other.
  exact (collaboration_ignores_institution (fun _ => "") sample_affiliation_fs
           (fun _ => Some (Table other)) "/srv/app" sample_affiliation_rows
           other eq_refl eq_refl eq_refl).
Defined.
